(** * KDAC: Kernel Dimension Alternative Clustering (include/kdac.h)

    A shallow embedding of the class [Nice::KDAC<T>] and proofs about its
    configuration setters, its initialisation and its embedding update.

    Modelling conventions.
    - The template parameter [T] is a type with the arithmetic operations
      (class [Arithmetic]); the engine is defined for any such type, IEEE
      [double] included. A property that needs the laws of exact arithmetic
      says so by asking for a [Scalar], an arithmetic that is a field.
    - [Matrix] and [Vector] are Eigen's dense dynamic containers: the
      dimensions together with the coefficient accessor [m(i, j)].
    - [int] members are [Z]; the narrowing of Eigen's 64-bit [Index] into an
      [int] wraps around modulo 2^32 ([int_of_Index]).
    - A member function is a computation over the engine state that returns,
      leaves the process through [exit], or fails, see [outcome]. The Eigen
      operations of the embedding update carry their preconditions: a
      product of matrices whose inner dimensions differ and [leftCols(c)]
      with [c] outside [0, cols] fail.
    - The helpers of include/cpu_operations.h and include/svd_solver.h are
      not part of the sources at hand and are taken as an interface
      ([CpuOperations], [SvdSolver]). *)

From Stdlib Require Import ZArith QArith Qcanon List Bool String Lia.
From Stdlib Require Import Ring Field Floats.
Import ListNotations.

Set Implicit Arguments.

(** ** Outcome of a member function *)

(** Why a call neither returns nor exits. *)
Inductive failure : Type :=
| EigenAssertion
    (* an argument is outside the precondition of the Eigen operation
       called: its assertion aborts the process; with the assertions
       compiled out the behaviour is undefined *)
| MissingReturn.
    (* control reaches the closing brace of a value-returning function
       without meeting a [return] statement: the behaviour is undefined *)

Inductive outcome (A : Type) : Type :=
| Returns (a : A)
    (* the call returns to its caller *)
| Exits (status : Z) (stderr : string)
    (* [std::cerr << stderr << std::endl; exit(status);] *)
| Fails (why : failure).
    (* the call does not come back and the program is not continued *)

Arguments Returns {A} a.
Arguments Exits {A} status stderr.
Arguments Fails {A} why.

(** State-and-exit monad: a member function reads and writes the object's
    members and may terminate the process. *)
Definition M (S A : Type) : Type := S -> outcome (A * S).

Definition ret {S A} (a : A) : M S A := fun s => Returns (a, s).

Definition bind {S A B} (m : M S A) (f : A -> M S B) : M S B :=
  fun s => match m s with
           | Returns (a, s') => f a s'
           | Exits status msg => Exits status msg
           | Fails why => Fails why
           end.

Definition get {S} : M S S := fun s => Returns (s, s).
Definition modify {S} (f : S -> S) : M S unit := fun s => Returns (tt, f s).
Definition exit {S A} (status : Z) (msg : string) : M S A :=
  fun _ => Exits status msg.

(** [eigen_assert(b)] *)
Definition eigen_assert {S} (b : bool) : M S unit :=
  fun s => if b then Returns (tt, s) else Fails EigenAssertion.

Declare Scope kdac_scope.
Delimit Scope kdac_scope with kdac.
Notation "x <- m ;; k" := (bind m (fun x => k))
  (at level 61, m at next level, right associativity) : kdac_scope.
Notation "m ;; k" := (bind m (fun _ => k))
  (at level 61, right associativity) : kdac_scope.
Open Scope kdac_scope.

(** The state a call leaves behind when it returns. *)
Definition final_state {S A} (o : outcome (A * S)) : option S :=
  match o with
  | Returns (_, s) => Some s
  | _ => None
  end.

Definition exited {A} (o : outcome A) : bool :=
  match o with
  | Exits _ _ => true
  | _ => false
  end.

(** ** Scalars: the template parameter [T] *)

(** The operations the engine uses on [T]. *)
Class Arithmetic (T : Type) : Type := {
  T0 : T;
  T1 : T;
  Tadd : T -> T -> T;
  Tmul : T -> T -> T;
  Tsub : T -> T -> T;
  Topp : T -> T;
  Tdiv : T -> T -> T;
  Tinv : T -> T
}.

(** An arithmetic without rounding: the operations form a field. *)
Class Scalar (T : Type) : Type := {
  Scalar_arithmetic :: Arithmetic T;
  Tfield : field_theory T0 T1 Tadd Tmul Tsub Topp Tdiv Tinv eq
}.

(** ** 32-bit [int] and Eigen's [Index] *)

Definition wrap_int (z : Z) : Z := (z + 2 ^ 31) mod 2 ^ 32 - 2 ^ 31.

(** [int n = m.rows();] *)
Definition int_of_Index (i : nat) : Z := wrap_int (Z.of_nat i).

(** An [int] passed where Eigen expects an [Index]. [Init] passes [n_] and
    [d_] as dimensions, which are negative only for an input with 2^31 or
    more rows or columns; Eigen requires a dimension to be non-negative, and
    a negative one is read as 0 here. *)
Definition Index_of_int (z : Z) : nat := Z.to_nat z.

(** ** Dense matrices and vectors *)

Record Matrix (A : Type) : Type := {
  rows : nat;
  cols : nat;
  coeff : nat -> nat -> A
}.

Record Vector (A : Type) : Type := {
  size : nat;
  vcoeff : nat -> A
}.

(** Two matrices with the same shape and the same entries. *)
Definition mat_eq {A} (a b : Matrix A) : Prop :=
  rows a = rows b /\ cols a = cols b /\
  forall i j, (i < rows a)%nat -> (j < cols a)%nat -> coeff a i j = coeff b i j.


(** include/kernel_types.h, as listed in the comment of [SetKernel]. *)
Inductive KernelType : Type :=
| kGaussianKernel
| kPolynomialKernel
| kLinearKernel.

Section Engine.

Context {T : Type} {AT : Arithmetic T}.

(** A default-constructed [Matrix<T>] is 0 by 0. *)
Definition empty_matrix {A} (dflt : A) : Matrix A :=
  {| rows := 0; cols := 0; coeff := fun _ _ => dflt |}.

Definition empty_vector {A} (dflt : A) : Vector A :=
  {| size := 0; vcoeff := fun _ => dflt |}.

(** [Matrix<T>::Identity(r, c)] *)
Definition Identity (r c : nat) : Matrix T :=
  {| rows := r; cols := c;
     coeff := fun i j => if Nat.eqb i j then T1 else T0 |}.

(** [Matrix<T>::Constant(r, c, v)] *)
Definition Constant (r c : nat) (v : T) : Matrix T :=
  {| rows := r; cols := c; coeff := fun _ _ => v |}.

(** [Vector<T>::Zero(n)] *)
Definition VZero (n : nat) : Vector T :=
  {| size := n; vcoeff := fun _ => T0 |}.

(** [a - b] *)
Definition msub (a b : Matrix T) : Matrix T :=
  {| rows := rows a; cols := cols a;
     coeff := fun i j => Tsub (coeff a i j) (coeff b i j) |}.

(** [a / s] *)
Definition mdiv (a : Matrix T) (s : T) : Matrix T :=
  {| rows := rows a; cols := cols a;
     coeff := fun i j => Tdiv (coeff a i j) s |}.

(** [s * a], used to state the centering matrix as the spec writes it *)
Definition mscale (s : T) (a : Matrix T) : Matrix T :=
  {| rows := rows a; cols := cols a;
     coeff := fun i j => Tmul s (coeff a i j) |}.

(** [f 0 + f 1 + ... + f (n - 1)] *)
Fixpoint sum_upto (n : nat) (f : nat -> T) : T :=
  match n with
  | O => T0
  | S k => Tadd (sum_upto k f) (f k)
  end.

(** [a * b] *)
Definition mmul (a b : Matrix T) : Matrix T :=
  {| rows := rows a; cols := cols b;
     coeff := fun i j =>
       sum_upto (cols a) (fun k => Tmul (coeff a i k) (coeff b k j)) |}.

(** The block of the first [c] columns of [m], for [c <= m.cols()]. *)
Definition leftCols (m : Matrix T) (c : nat) : Matrix T :=
  {| rows := rows m; cols := c; coeff := coeff m |}.

(** [a * b] as the engine calls it: Eigen asserts
    [a.cols() == b.rows()]. *)
Definition mmul_checked {S} (a b : Matrix T) : M S (Matrix T) :=
  eigen_assert (Nat.eqb (cols a) (rows b)) ;; ret (mmul a b).

(** [m.leftCols(c)] with an [int] [c]: Eigen asserts
    [c >= 0 && c <= m.cols()]. *)
Definition leftCols_checked {S} (m : Matrix T) (c : Z) : M S (Matrix T) :=
  eigen_assert ((0 <=? c)%Z && (c <=? Z.of_nat (cols m))%Z) ;;
  ret (leftCols m (Index_of_int c)).

Definition diagonal (a : Matrix T) : Prop :=
  rows a = cols a /\
  forall i j, (i < rows a)%nat -> (j < rows a)%nat -> i <> j ->
              coeff a i j = T0.

(** [float(n)] read in [T] *)
Fixpoint T_of_pos (p : positive) : T :=
  match p with
  | xH => T1
  | xO p' => Tmul (Tadd T1 T1) (T_of_pos p')
  | xI p' => Tadd T1 (Tmul (Tadd T1 T1) (T_of_pos p'))
  end.

Definition T_of_int (z : Z) : T :=
  match z with
  | Z0 => T0
  | Zpos p => T_of_pos p
  | Zneg p => Topp (T_of_pos p)
  end.

(** ** Collaborators the engine calls *)

(** include/cpu_operations.h *)
Class CpuOperations : Type := {
  (* [CpuOperations<T>::GenKernelMatrix(m, kernel_type, constant)] *)
  GenKernelMatrix : Matrix T -> KernelType -> Q -> Matrix T;
  (* [CpuOperations<T>::GenDegreeMatrix(k, d, d_to_the_minus_half)]:
     the two matrices it writes through its reference parameters *)
  GenDegreeMatrix : Matrix T -> Matrix T * Matrix T;
  (* [CpuOperations<T>::Normalize(m, p, axis)] *)
  Normalize : Matrix T -> Z -> Z -> Matrix T
}.

(** include/svd_solver.h: [solver.Compute(m); solver.MatrixU()] *)
Class SvdSolver : Type := {
  MatrixU : Matrix T -> Matrix T
}.

Context {CPU : CpuOperations} {SVD : SvdSolver}.

(** ** The members of [KDAC<T>] *)

Record KDAC_state : Type := {
  c_ : Z;                       (* cluster number c *)
  q_ : Z;                       (* reduced dimension q *)
  n_ : Z;                       (* number of samples in input data X *)
  d_ : Z;                       (* input data X dimension d *)
  kernel_type_ : KernelType;
  constant_ : Q;                (* [float constant_], only handed on to
                                   [GenKernelMatrix] *)
  u_converge : bool;
  v_converge : bool;
  x_matrix_ : Matrix T;         (* n by d *)
  w_matrix_ : Matrix T;
  y_matrix_ : Matrix bool;
  d_matrix_ : Matrix T;
  d_matrix_to_the_minus_half_ : Matrix T;
  k_matrix_ : Matrix T;
  u_matrix_ : Matrix T;
  u_matrix_normalized_ : Matrix T;
  l_matrix_ : Matrix T;
  h_matrix_ : Matrix T;
  clustering_result : Vector T
}.

Definition set_c_ (v : Z) (s : KDAC_state) : KDAC_state :=
  {| c_ := v; q_ := q_ s; n_ := n_ s; d_ := d_ s;
     kernel_type_ := kernel_type_ s; constant_ := constant_ s;
     u_converge := u_converge s; v_converge := v_converge s;
     x_matrix_ := x_matrix_ s; w_matrix_ := w_matrix_ s;
     y_matrix_ := y_matrix_ s; d_matrix_ := d_matrix_ s;
     d_matrix_to_the_minus_half_ := d_matrix_to_the_minus_half_ s;
     k_matrix_ := k_matrix_ s; u_matrix_ := u_matrix_ s;
     u_matrix_normalized_ := u_matrix_normalized_ s;
     l_matrix_ := l_matrix_ s; h_matrix_ := h_matrix_ s;
     clustering_result := clustering_result s |}.

Definition set_q_ (v : Z) (s : KDAC_state) : KDAC_state :=
  {| c_ := c_ s; q_ := v; n_ := n_ s; d_ := d_ s;
     kernel_type_ := kernel_type_ s; constant_ := constant_ s;
     u_converge := u_converge s; v_converge := v_converge s;
     x_matrix_ := x_matrix_ s; w_matrix_ := w_matrix_ s;
     y_matrix_ := y_matrix_ s; d_matrix_ := d_matrix_ s;
     d_matrix_to_the_minus_half_ := d_matrix_to_the_minus_half_ s;
     k_matrix_ := k_matrix_ s; u_matrix_ := u_matrix_ s;
     u_matrix_normalized_ := u_matrix_normalized_ s;
     l_matrix_ := l_matrix_ s; h_matrix_ := h_matrix_ s;
     clustering_result := clustering_result s |}.

Definition set_n_ (v : Z) (s : KDAC_state) : KDAC_state :=
  {| c_ := c_ s; q_ := q_ s; n_ := v; d_ := d_ s;
     kernel_type_ := kernel_type_ s; constant_ := constant_ s;
     u_converge := u_converge s; v_converge := v_converge s;
     x_matrix_ := x_matrix_ s; w_matrix_ := w_matrix_ s;
     y_matrix_ := y_matrix_ s; d_matrix_ := d_matrix_ s;
     d_matrix_to_the_minus_half_ := d_matrix_to_the_minus_half_ s;
     k_matrix_ := k_matrix_ s; u_matrix_ := u_matrix_ s;
     u_matrix_normalized_ := u_matrix_normalized_ s;
     l_matrix_ := l_matrix_ s; h_matrix_ := h_matrix_ s;
     clustering_result := clustering_result s |}.

Definition set_d_ (v : Z) (s : KDAC_state) : KDAC_state :=
  {| c_ := c_ s; q_ := q_ s; n_ := n_ s; d_ := v;
     kernel_type_ := kernel_type_ s; constant_ := constant_ s;
     u_converge := u_converge s; v_converge := v_converge s;
     x_matrix_ := x_matrix_ s; w_matrix_ := w_matrix_ s;
     y_matrix_ := y_matrix_ s; d_matrix_ := d_matrix_ s;
     d_matrix_to_the_minus_half_ := d_matrix_to_the_minus_half_ s;
     k_matrix_ := k_matrix_ s; u_matrix_ := u_matrix_ s;
     u_matrix_normalized_ := u_matrix_normalized_ s;
     l_matrix_ := l_matrix_ s; h_matrix_ := h_matrix_ s;
     clustering_result := clustering_result s |}.

Definition set_kernel_type_ (v : KernelType) (s : KDAC_state) : KDAC_state :=
  {| c_ := c_ s; q_ := q_ s; n_ := n_ s; d_ := d_ s; kernel_type_ := v;
     constant_ := constant_ s; u_converge := u_converge s;
     v_converge := v_converge s; x_matrix_ := x_matrix_ s;
     w_matrix_ := w_matrix_ s; y_matrix_ := y_matrix_ s;
     d_matrix_ := d_matrix_ s;
     d_matrix_to_the_minus_half_ := d_matrix_to_the_minus_half_ s;
     k_matrix_ := k_matrix_ s; u_matrix_ := u_matrix_ s;
     u_matrix_normalized_ := u_matrix_normalized_ s;
     l_matrix_ := l_matrix_ s; h_matrix_ := h_matrix_ s;
     clustering_result := clustering_result s |}.

Definition set_constant_ (v : Q) (s : KDAC_state) : KDAC_state :=
  {| c_ := c_ s; q_ := q_ s; n_ := n_ s; d_ := d_ s;
     kernel_type_ := kernel_type_ s; constant_ := v;
     u_converge := u_converge s; v_converge := v_converge s;
     x_matrix_ := x_matrix_ s; w_matrix_ := w_matrix_ s;
     y_matrix_ := y_matrix_ s; d_matrix_ := d_matrix_ s;
     d_matrix_to_the_minus_half_ := d_matrix_to_the_minus_half_ s;
     k_matrix_ := k_matrix_ s; u_matrix_ := u_matrix_ s;
     u_matrix_normalized_ := u_matrix_normalized_ s;
     l_matrix_ := l_matrix_ s; h_matrix_ := h_matrix_ s;
     clustering_result := clustering_result s |}.

Definition set_u_converge (v : bool) (s : KDAC_state) : KDAC_state :=
  {| c_ := c_ s; q_ := q_ s; n_ := n_ s; d_ := d_ s;
     kernel_type_ := kernel_type_ s; constant_ := constant_ s;
     u_converge := v; v_converge := v_converge s; x_matrix_ := x_matrix_ s;
     w_matrix_ := w_matrix_ s; y_matrix_ := y_matrix_ s;
     d_matrix_ := d_matrix_ s;
     d_matrix_to_the_minus_half_ := d_matrix_to_the_minus_half_ s;
     k_matrix_ := k_matrix_ s; u_matrix_ := u_matrix_ s;
     u_matrix_normalized_ := u_matrix_normalized_ s;
     l_matrix_ := l_matrix_ s; h_matrix_ := h_matrix_ s;
     clustering_result := clustering_result s |}.

Definition set_v_converge (v : bool) (s : KDAC_state) : KDAC_state :=
  {| c_ := c_ s; q_ := q_ s; n_ := n_ s; d_ := d_ s;
     kernel_type_ := kernel_type_ s; constant_ := constant_ s;
     u_converge := u_converge s; v_converge := v; x_matrix_ := x_matrix_ s;
     w_matrix_ := w_matrix_ s; y_matrix_ := y_matrix_ s;
     d_matrix_ := d_matrix_ s;
     d_matrix_to_the_minus_half_ := d_matrix_to_the_minus_half_ s;
     k_matrix_ := k_matrix_ s; u_matrix_ := u_matrix_ s;
     u_matrix_normalized_ := u_matrix_normalized_ s;
     l_matrix_ := l_matrix_ s; h_matrix_ := h_matrix_ s;
     clustering_result := clustering_result s |}.

Definition set_x_matrix_ (v : Matrix T) (s : KDAC_state) : KDAC_state :=
  {| c_ := c_ s; q_ := q_ s; n_ := n_ s; d_ := d_ s;
     kernel_type_ := kernel_type_ s; constant_ := constant_ s;
     u_converge := u_converge s; v_converge := v_converge s; x_matrix_ := v;
     w_matrix_ := w_matrix_ s; y_matrix_ := y_matrix_ s;
     d_matrix_ := d_matrix_ s;
     d_matrix_to_the_minus_half_ := d_matrix_to_the_minus_half_ s;
     k_matrix_ := k_matrix_ s; u_matrix_ := u_matrix_ s;
     u_matrix_normalized_ := u_matrix_normalized_ s;
     l_matrix_ := l_matrix_ s; h_matrix_ := h_matrix_ s;
     clustering_result := clustering_result s |}.

Definition set_w_matrix_ (v : Matrix T) (s : KDAC_state) : KDAC_state :=
  {| c_ := c_ s; q_ := q_ s; n_ := n_ s; d_ := d_ s;
     kernel_type_ := kernel_type_ s; constant_ := constant_ s;
     u_converge := u_converge s; v_converge := v_converge s;
     x_matrix_ := x_matrix_ s; w_matrix_ := v; y_matrix_ := y_matrix_ s;
     d_matrix_ := d_matrix_ s;
     d_matrix_to_the_minus_half_ := d_matrix_to_the_minus_half_ s;
     k_matrix_ := k_matrix_ s; u_matrix_ := u_matrix_ s;
     u_matrix_normalized_ := u_matrix_normalized_ s;
     l_matrix_ := l_matrix_ s; h_matrix_ := h_matrix_ s;
     clustering_result := clustering_result s |}.

Definition set_d_matrix_ (v : Matrix T) (s : KDAC_state) : KDAC_state :=
  {| c_ := c_ s; q_ := q_ s; n_ := n_ s; d_ := d_ s;
     kernel_type_ := kernel_type_ s; constant_ := constant_ s;
     u_converge := u_converge s; v_converge := v_converge s;
     x_matrix_ := x_matrix_ s; w_matrix_ := w_matrix_ s;
     y_matrix_ := y_matrix_ s; d_matrix_ := v;
     d_matrix_to_the_minus_half_ := d_matrix_to_the_minus_half_ s;
     k_matrix_ := k_matrix_ s; u_matrix_ := u_matrix_ s;
     u_matrix_normalized_ := u_matrix_normalized_ s;
     l_matrix_ := l_matrix_ s; h_matrix_ := h_matrix_ s;
     clustering_result := clustering_result s |}.

Definition set_d_matrix_to_the_minus_half_ (v : Matrix T) (s : KDAC_state) : KDAC_state :=
  {| c_ := c_ s; q_ := q_ s; n_ := n_ s; d_ := d_ s;
     kernel_type_ := kernel_type_ s; constant_ := constant_ s;
     u_converge := u_converge s; v_converge := v_converge s;
     x_matrix_ := x_matrix_ s; w_matrix_ := w_matrix_ s;
     y_matrix_ := y_matrix_ s; d_matrix_ := d_matrix_ s;
     d_matrix_to_the_minus_half_ := v; k_matrix_ := k_matrix_ s;
     u_matrix_ := u_matrix_ s;
     u_matrix_normalized_ := u_matrix_normalized_ s;
     l_matrix_ := l_matrix_ s; h_matrix_ := h_matrix_ s;
     clustering_result := clustering_result s |}.

Definition set_k_matrix_ (v : Matrix T) (s : KDAC_state) : KDAC_state :=
  {| c_ := c_ s; q_ := q_ s; n_ := n_ s; d_ := d_ s;
     kernel_type_ := kernel_type_ s; constant_ := constant_ s;
     u_converge := u_converge s; v_converge := v_converge s;
     x_matrix_ := x_matrix_ s; w_matrix_ := w_matrix_ s;
     y_matrix_ := y_matrix_ s; d_matrix_ := d_matrix_ s;
     d_matrix_to_the_minus_half_ := d_matrix_to_the_minus_half_ s;
     k_matrix_ := v; u_matrix_ := u_matrix_ s;
     u_matrix_normalized_ := u_matrix_normalized_ s;
     l_matrix_ := l_matrix_ s; h_matrix_ := h_matrix_ s;
     clustering_result := clustering_result s |}.

Definition set_u_matrix_ (v : Matrix T) (s : KDAC_state) : KDAC_state :=
  {| c_ := c_ s; q_ := q_ s; n_ := n_ s; d_ := d_ s;
     kernel_type_ := kernel_type_ s; constant_ := constant_ s;
     u_converge := u_converge s; v_converge := v_converge s;
     x_matrix_ := x_matrix_ s; w_matrix_ := w_matrix_ s;
     y_matrix_ := y_matrix_ s; d_matrix_ := d_matrix_ s;
     d_matrix_to_the_minus_half_ := d_matrix_to_the_minus_half_ s;
     k_matrix_ := k_matrix_ s; u_matrix_ := v;
     u_matrix_normalized_ := u_matrix_normalized_ s;
     l_matrix_ := l_matrix_ s; h_matrix_ := h_matrix_ s;
     clustering_result := clustering_result s |}.

Definition set_u_matrix_normalized_ (v : Matrix T) (s : KDAC_state) : KDAC_state :=
  {| c_ := c_ s; q_ := q_ s; n_ := n_ s; d_ := d_ s;
     kernel_type_ := kernel_type_ s; constant_ := constant_ s;
     u_converge := u_converge s; v_converge := v_converge s;
     x_matrix_ := x_matrix_ s; w_matrix_ := w_matrix_ s;
     y_matrix_ := y_matrix_ s; d_matrix_ := d_matrix_ s;
     d_matrix_to_the_minus_half_ := d_matrix_to_the_minus_half_ s;
     k_matrix_ := k_matrix_ s; u_matrix_ := u_matrix_ s;
     u_matrix_normalized_ := v; l_matrix_ := l_matrix_ s;
     h_matrix_ := h_matrix_ s; clustering_result := clustering_result s |}.

Definition set_l_matrix_ (v : Matrix T) (s : KDAC_state) : KDAC_state :=
  {| c_ := c_ s; q_ := q_ s; n_ := n_ s; d_ := d_ s;
     kernel_type_ := kernel_type_ s; constant_ := constant_ s;
     u_converge := u_converge s; v_converge := v_converge s;
     x_matrix_ := x_matrix_ s; w_matrix_ := w_matrix_ s;
     y_matrix_ := y_matrix_ s; d_matrix_ := d_matrix_ s;
     d_matrix_to_the_minus_half_ := d_matrix_to_the_minus_half_ s;
     k_matrix_ := k_matrix_ s; u_matrix_ := u_matrix_ s;
     u_matrix_normalized_ := u_matrix_normalized_ s; l_matrix_ := v;
     h_matrix_ := h_matrix_ s; clustering_result := clustering_result s |}.

Definition set_h_matrix_ (v : Matrix T) (s : KDAC_state) : KDAC_state :=
  {| c_ := c_ s; q_ := q_ s; n_ := n_ s; d_ := d_ s;
     kernel_type_ := kernel_type_ s; constant_ := constant_ s;
     u_converge := u_converge s; v_converge := v_converge s;
     x_matrix_ := x_matrix_ s; w_matrix_ := w_matrix_ s;
     y_matrix_ := y_matrix_ s; d_matrix_ := d_matrix_ s;
     d_matrix_to_the_minus_half_ := d_matrix_to_the_minus_half_ s;
     k_matrix_ := k_matrix_ s; u_matrix_ := u_matrix_ s;
     u_matrix_normalized_ := u_matrix_normalized_ s;
     l_matrix_ := l_matrix_ s; h_matrix_ := v;
     clustering_result := clustering_result s |}.

Definition set_clustering_result (v : Vector T) (s : KDAC_state) : KDAC_state :=
  {| c_ := c_ s; q_ := q_ s; n_ := n_ s; d_ := d_ s;
     kernel_type_ := kernel_type_ s; constant_ := constant_ s;
     u_converge := u_converge s; v_converge := v_converge s;
     x_matrix_ := x_matrix_ s; w_matrix_ := w_matrix_ s;
     y_matrix_ := y_matrix_ s; d_matrix_ := d_matrix_ s;
     d_matrix_to_the_minus_half_ := d_matrix_to_the_minus_half_ s;
     k_matrix_ := k_matrix_ s; u_matrix_ := u_matrix_ s;
     u_matrix_normalized_ := u_matrix_normalized_ s;
     l_matrix_ := l_matrix_ s; h_matrix_ := h_matrix_ s;
     clustering_result := v |}.

(** The object before the constructor body runs: the matrices are
    default-constructed (0 by 0), the [int], [float] and [bool] members hold
    whatever the storage held. *)
Definition uninitialized (c q n d : Z) (kt : KernelType) (k : Q)
    (uc vc : bool) : KDAC_state :=
  {| c_ := c; q_ := q; n_ := n; d_ := d;
     kernel_type_ := kt; constant_ := k;
     u_converge := uc; v_converge := vc;
     x_matrix_ := empty_matrix T0; w_matrix_ := empty_matrix T0;
     y_matrix_ := empty_matrix false; d_matrix_ := empty_matrix T0;
     d_matrix_to_the_minus_half_ := empty_matrix T0;
     k_matrix_ := empty_matrix T0; u_matrix_ := empty_matrix T0;
     u_matrix_normalized_ := empty_matrix T0;
     l_matrix_ := empty_matrix T0; h_matrix_ := empty_matrix T0;
     clustering_result := empty_vector T0 |}.

(** ** Member functions *)

Definition CheckCQ_message : string :=
  "Reduced dimension q cannot exceed cluster number c".

(** [void CheckCQ()] *)
Definition CheckCQ : M KDAC_state unit :=
  s <- get ;;
  if (q_ s >? c_ s)%Z then exit 1 CheckCQ_message else ret tt.

(** [void SetC(int c)] *)
Definition SetC (c : Z) : M KDAC_state unit :=
  modify (set_c_ c) ;; CheckCQ.

(** [void SetQ(int q)] *)
Definition SetQ (q : Z) : M KDAC_state unit :=
  modify (set_q_ q) ;; CheckCQ.

(** What a setter call may do, [assigned] being the members right after
    the assignment: return with [q <= c], or exit with status 1 and the
    message of [CheckCQ] because [q > c]. *)
Definition invariant_or_fatal (assigned : KDAC_state)
    (o : outcome (unit * KDAC_state)) : Prop :=
  match o with
  | Returns (_, s') => s' = assigned /\ (q_ s' <= c_ s')%Z
  | Exits status msg =>
      status = 1%Z /\ msg = CheckCQ_message /\ (q_ assigned > c_ assigned)%Z
  | Fails _ => False
  end.

(** [Matrix<T> GetU(void)] and the other accessors return a copy of the
    member. *)
Definition GetU : M KDAC_state (Matrix T) :=
  s <- get ;; ret (u_matrix_ s).

Definition GetUNormalized : M KDAC_state (Matrix T) :=
  s <- get ;; ret (u_matrix_normalized_ s).

Definition GetL : M KDAC_state (Matrix T) :=
  s <- get ;; ret (l_matrix_ s).

Definition GetD : M KDAC_state (Matrix T) :=
  s <- get ;; ret (d_matrix_ s).

Definition GetDToTheMinusHalf : M KDAC_state (Matrix T) :=
  s <- get ;; ret (d_matrix_to_the_minus_half_ s).

Definition GetK : M KDAC_state (Matrix T) :=
  s <- get ;; ret (k_matrix_ s).

(** [void SetKernel(KernelType kernel_type, float constant)] *)
Definition SetKernel (kernel_type : KernelType) (constant : Q)
  : M KDAC_state unit :=
  modify (set_kernel_type_ kernel_type) ;;
  modify (set_constant_ constant).

(** [KDAC()] *)
Definition KDAC : M KDAC_state unit :=
  SetC 2 ;; SetQ 2 ;; SetKernel kGaussianKernel 1.

(** [void Init(const Matrix<T> &input_matrix)] *)
Definition Init (input_matrix : Matrix T) : M KDAC_state unit :=
  modify (set_x_matrix_ input_matrix) ;;
  modify (set_n_ (int_of_Index (rows input_matrix))) ;;
  modify (set_d_ (int_of_Index (cols input_matrix))) ;;
  s <- get ;;
  modify (set_w_matrix_
            (Identity (Index_of_int (d_ s)) (Index_of_int (d_ s)))) ;;
  modify (set_h_matrix_
            (msub (Identity (Index_of_int (n_ s)) (Index_of_int (n_ s)))
                  (mdiv (Constant (Index_of_int (n_ s))
                                  (Index_of_int (n_ s)) T1)
                        (T_of_int (n_ s))))) ;;
  modify (set_clustering_result (VZero (Index_of_int (n_ s)))) ;;
  modify (set_u_converge false) ;;
  modify (set_v_converge false).

(** [void OptimizeW(void)]: the body is empty *)
Definition OptimizeW : M KDAC_state unit := ret tt.

(** [void OptimizeU(void)] *)
Definition OptimizeU : M KDAC_state unit :=
  s <- get ;;
  projected_x_matrix <- mmul_checked (x_matrix_ s) (w_matrix_ s) ;;
  modify (set_k_matrix_
            (GenKernelMatrix projected_x_matrix
                             (kernel_type_ s) (constant_ s))) ;;
  s <- get ;;
  let degree := GenDegreeMatrix (k_matrix_ s) in
  modify (set_d_matrix_ (fst degree)) ;;
  modify (set_d_matrix_to_the_minus_half_ (snd degree)) ;;
  s <- get ;;
  d_k <- mmul_checked (d_matrix_to_the_minus_half_ s) (k_matrix_ s) ;;
  d_k_d <- mmul_checked d_k (d_matrix_to_the_minus_half_ s) ;;
  modify (set_l_matrix_ d_k_d) ;;
  s <- get ;;
  u <- leftCols_checked (MatrixU (l_matrix_ s)) (c_ s) ;;
  modify (set_u_matrix_ u) ;;
  s <- get ;;
  modify (set_u_matrix_normalized_ (Normalize (u_matrix_ s) 2 1)).

(** [void Fit(const Matrix<T> &input_matrix)] *)
Definition Fit (input_matrix : Matrix T) : M KDAC_state unit :=
  Init input_matrix ;; OptimizeU ;; OptimizeW.

(** [void Fit(void)]: the body is empty *)
Definition Fit_void : M KDAC_state unit := ret tt.

(** [Vector<T> Predict(void)]: the body is empty; the function has a
    result type and no [return] statement. *)
Definition Predict : M KDAC_state (Vector T) := fun _ => Fails MissingReturn.

(** The centering matrix as the specification writes it,
    [H = I - (1/n) * ones(n, n)]. *)
Definition centering_spec (n : nat) : Matrix T :=
  msub (Identity n n)
       (mscale (Tdiv T1 (T_of_int (Z.of_nat n))) (Constant n n T1)).

(** The members after [Init(input_matrix)], in one expression. *)
Definition Init_state (input_matrix : Matrix T) (s : KDAC_state)
  : KDAC_state :=
  let n := int_of_Index (rows input_matrix) in
  let d := int_of_Index (cols input_matrix) in
  set_v_converge false
    (set_u_converge false
      (set_clustering_result (VZero (Index_of_int n))
        (set_h_matrix_
           (msub (Identity (Index_of_int n) (Index_of_int n))
                 (mdiv (Constant (Index_of_int n) (Index_of_int n) T1)
                       (T_of_int n)))
           (set_w_matrix_ (Identity (Index_of_int d) (Index_of_int d))
              (set_d_ d (set_n_ n (set_x_matrix_ input_matrix s))))))).

(** The members after [OptimizeU()] when it returns, in one expression. *)
Definition OptimizeU_state (s : KDAC_state) : KDAC_state :=
  let K := GenKernelMatrix (mmul (x_matrix_ s) (w_matrix_ s))
                           (kernel_type_ s) (constant_ s) in
  let D := fst (GenDegreeMatrix K) in
  let Dmh := snd (GenDegreeMatrix K) in
  let L := mmul (mmul Dmh K) Dmh in
  let U := leftCols (MatrixU L) (Index_of_int (c_ s)) in
  set_u_matrix_normalized_ (Normalize U 2 1)
    (set_u_matrix_ U
      (set_l_matrix_ L
        (set_d_matrix_to_the_minus_half_ Dmh
          (set_d_matrix_ D (set_k_matrix_ K s))))).

(** The preconditions of the Eigen operations [OptimizeU] calls, in the
    order it meets them. *)
Definition OptimizeU_defined (s : KDAC_state) : bool :=
  let K := GenKernelMatrix (mmul (x_matrix_ s) (w_matrix_ s))
                           (kernel_type_ s) (constant_ s) in
  let Dmh := snd (GenDegreeMatrix K) in
  let L := mmul (mmul Dmh K) Dmh in
  Nat.eqb (cols (x_matrix_ s)) (rows (w_matrix_ s)) &&
  (Nat.eqb (cols Dmh) (rows K) &&
   (Nat.eqb (cols K) (rows Dmh) &&
    ((0 <=? c_ s)%Z && (c_ s <=? Z.of_nat (cols (MatrixU L)))%Z))).

End Engine.

(** ** The outer loop as section 4.5 of the specification words it

    Rounds of EMBED then PROJECT, at most [budget] of them, stopping as soon
    as both convergence flags are set. From the second round on, the flags
    are set when the change of [U_normalized] from the round before to this
    one is below the tolerance ([close_enough before after]); the first
    round has no round before it. *)
Section AlternationSpec.

Context {T : Type} {AT : Arithmetic T} {CPU : @CpuOperations T} {SVD : @SvdSolver T}.

Variable close_enough : Matrix T -> Matrix T -> bool.




End AlternationSpec.

(** ** Sequences of calls to the public interface *)

Section Calls.

Context {T : Type} {AT : Arithmetic T} {CPU : @CpuOperations T} {SVD : @SvdSolver T}.

(** A call a client can make on an engine it has constructed. [Predict] is
    left out: a program that calls it has no defined behaviour. *)
Inductive call : Type :=
| Call_SetC (c : Z)
| Call_SetQ (q : Z)
| Call_SetKernel (kernel_type : KernelType) (constant : Q)
| Call_Fit (input_matrix : Matrix T)
| Call_Fit_void
| Call_GetU
| Call_GetUNormalized
| Call_GetL
| Call_GetD
| Call_GetDToTheMinusHalf
| Call_GetK.

(** The call made as a statement, its value dropped. *)
Definition do_call (c : call) : M (@KDAC_state T) unit :=
  match c with
  | Call_SetC c => SetC c
  | Call_SetQ q => SetQ q
  | Call_SetKernel kernel_type constant => SetKernel kernel_type constant
  | Call_Fit input_matrix => Fit input_matrix
  | Call_Fit_void => Fit_void
  | Call_GetU => _ <- GetU ;; ret tt
  | Call_GetUNormalized => _ <- GetUNormalized ;; ret tt
  | Call_GetL => _ <- GetL ;; ret tt
  | Call_GetD => _ <- GetD ;; ret tt
  | Call_GetDToTheMinusHalf => _ <- GetDToTheMinusHalf ;; ret tt
  | Call_GetK => _ <- GetK ;; ret tt
  end.

Fixpoint do_calls (cs : list call) : M (@KDAC_state T) unit :=
  match cs with
  | [] => ret tt
  | c :: cs' => do_call c ;; do_calls cs'
  end.

(** A client program: construct, then call. *)
Definition program (cs : list call) : M (@KDAC_state T) unit :=
  KDAC ;; do_calls cs.

Definition is_setter (c : call) : bool :=
  match c with
  | Call_SetC _ | Call_SetQ _ => true
  | _ => false
  end.

(** [k] rounds of the two phases, one after the other. *)
Fixpoint rounds (k : nat) : M (@KDAC_state T) unit :=
  match k with
  | O => ret tt
  | S k' => OptimizeU ;; OptimizeW ;; rounds k'
  end.

(** Two engines with the same configuration. *)
Definition same_configuration (s t : @KDAC_state T) : Prop :=
  c_ s = c_ t /\ q_ s = q_ t /\
  kernel_type_ s = kernel_type_ t /\ constant_ s = constant_ t.

End Calls.

(** ** Instances to run the engine on

    Stand-ins for the collaborators, with the shapes the engine expects:
    the kernel matrix is the Gram matrix of the rows (n by n), the degrees
    are its row sums and [D^(-1/2)] holds the reciprocals of their square
    roots, as the comment in [OptimizeU] spells it, and the decomposition of
    an n by n matrix returns the canonical basis (n by n). *)

Section StandIns.

Context {T : Type} {AT : Arithmetic T}.

Variable root : T -> T.

Definition transpose (a : Matrix T) : Matrix T :=
  {| rows := cols a; cols := rows a; coeff := fun i j => coeff a j i |}.

Definition row_sum (a : Matrix T) (i : nat) : T :=
  sum_upto (cols a) (fun j => coeff a i j).

Definition diag_of (n : nat) (f : nat -> T) : Matrix T :=
  {| rows := n; cols := n;
     coeff := fun i j => if Nat.eqb i j then f i else T0 |}.

Definition row_norm (a : Matrix T) (i : nat) : T :=
  root (sum_upto (cols a) (fun j => Tmul (coeff a i j) (coeff a i j))).

Definition stand_in_cpu : @CpuOperations T :=
  {| GenKernelMatrix := fun m _ _ => mmul m (transpose m);
     GenDegreeMatrix := fun k =>
       (diag_of (rows k) (row_sum k),
        diag_of (rows k) (fun i => Tdiv T1 (root (row_sum k i))));
     Normalize := fun m _ _ =>
       {| rows := rows m; cols := cols m;
          coeff := fun i j => Tdiv (coeff m i j) (row_norm m i) |} |}.

Definition stand_in_svd : @SvdSolver T :=
  {| MatrixU := fun m => Identity (rows m) (rows m) |}.

End StandIns.

(** Exact rationals; the root is exact on squares of rationals. *)

Definition Qc_Arithmetic : Arithmetic Qc :=
  {| T0 := 0%Qc; T1 := 1%Qc; Tadd := Qcplus; Tmul := Qcmult;
     Tsub := Qcminus; Topp := Qcopp; Tdiv := Qcdiv; Tinv := Qcinv |}.

#[export] Instance Qc_Scalar : Scalar Qc :=
  {| Scalar_arithmetic := Qc_Arithmetic; Tfield := Qcft |}.

Definition Qc_sqrt (x : Qc) : Qc :=
  Q2Qc (Z.sqrt (Qnum x) # Pos.sqrt (Qden x)).

#[export] Instance demo_cpu : @CpuOperations Qc := stand_in_cpu Qc_sqrt.

#[export] Instance demo_svd : @SvdSolver Qc := stand_in_svd.

(** [KDAC<double>]: IEEE 754 binary64 with its rounding. *)

#[export] Instance double_Arithmetic : Arithmetic PrimFloat.float :=
  {| T0 := 0%float; T1 := 1%float;
     Tadd := PrimFloat.add; Tmul := PrimFloat.mul; Tsub := PrimFloat.sub;
     Topp := PrimFloat.opp; Tdiv := PrimFloat.div;
     Tinv := fun x => PrimFloat.div 1%float x |}.

#[export] Instance double_cpu : @CpuOperations PrimFloat.float :=
  stand_in_cpu PrimFloat.sqrt.

#[export] Instance double_svd : @SvdSolver PrimFloat.float := stand_in_svd.



(** The engine as [KDAC<Qc> kdac;] leaves it when the storage held zeros. *)
Definition zeroed_storage : @KDAC_state Qc :=
  uninitialized 0 0 0 0 kGaussianKernel 0 false false.

Definition default_engine : @KDAC_state Qc :=
  set_constant_ 1 (set_kernel_type_ kGaussianKernel
                     (set_q_ 2 (set_c_ 2 zeroed_storage))).

(** A 1 by 1 input, [X = (2)]. *)
Definition X_1x1 : Matrix Qc :=
  {| rows := 1; cols := 1; coeff := fun _ _ => Q2Qc 2 |}.

(** A 1 by 3 input, [X = (1 2 3)]. *)
Definition X_1x3 : Matrix Qc :=
  {| rows := 1; cols := 3;
     coeff := fun _ j => Q2Qc (Z.of_nat (S j) # 1) |}.

(** A 2 by 1 input, [X = (3; 4)]. *)
Definition X_2x1 : Matrix Qc :=
  {| rows := 2; cols := 1;
     coeff := fun i _ => Q2Qc (Z.of_nat (3 + i) # 1) |}.


(** An input without columns, 2 by 0. *)
Definition X_2x0 : Matrix Qc :=
  {| rows := 2; cols := 0; coeff := fun _ _ => 0%Qc |}.

(** A 3 by 2 input, [X = (1 2; 2 3; 3 4)]. *)
Definition X_3x2 : Matrix Qc :=
  {| rows := 3; cols := 2;
     coeff := fun i j => Q2Qc (Z.of_nat (S (i + j)) # 1) |}.

(** The default engine after [Fit(X_2x1)]. *)
Definition fitted_once : @KDAC_state Qc :=
  OptimizeU_state (Init_state X_2x1 default_engine).

Unset Implicit Arguments.

(** * Properties *)

(** ** The monad *)

Lemma bind_Returns {S A B} (m : M S A) (f : A -> M S B) s a s' :
  m s = Returns (a, s') -> bind m f s = f a s'.
Proof. unfold bind; intros ->; reflexivity. Qed.

Lemma Returns_state_inj {S A} (a a' : A) (s s' : S) :
  Returns (a, s) = Returns (a', s') -> s = s'.
Proof. intros E; injection E as _ E; exact E. Qed.

Lemma bind_modify {S B} (g : S -> S) (f : unit -> M S B) s :
  bind (modify g) f s = f tt (g s).
Proof. reflexivity. Qed.

Lemma bind_get {S B} (f : S -> M S B) s : bind get f s = f s s.
Proof. reflexivity. Qed.

Lemma bind_ret {S A B} (a : A) (f : A -> M S B) s : bind (ret a) f s = f a s.
Proof. reflexivity. Qed.

Lemma bind_Exits {S A B} (m : M S A) (f : A -> M S B) s status msg :
  m s = Exits status msg -> bind m f s = Exits status msg.
Proof. unfold bind; intros ->; reflexivity. Qed.

Lemma bind_Fails {S A B} (m : M S A) (f : A -> M S B) s why :
  m s = Fails why -> bind m f s = Fails why.
Proof. unfold bind; intros ->; reflexivity. Qed.

(** Reading a member through a chain of assignments. *)
Ltac fields :=
  cbn [c_ q_ n_ d_ kernel_type_ constant_ u_converge v_converge
       x_matrix_ w_matrix_ y_matrix_ d_matrix_ d_matrix_to_the_minus_half_
       k_matrix_ u_matrix_ u_matrix_normalized_ l_matrix_ h_matrix_
       clustering_result
       set_c_ set_q_ set_n_ set_d_ set_kernel_type_ set_constant_
       set_u_converge set_v_converge set_x_matrix_ set_w_matrix_
       set_d_matrix_ set_d_matrix_to_the_minus_half_ set_k_matrix_
       set_u_matrix_ set_u_matrix_normalized_ set_l_matrix_ set_h_matrix_
       set_clustering_result].

Ltac fields_in H :=
  cbn [c_ q_ n_ d_ kernel_type_ constant_ u_converge v_converge
       x_matrix_ w_matrix_ y_matrix_ d_matrix_ d_matrix_to_the_minus_half_
       k_matrix_ u_matrix_ u_matrix_normalized_ l_matrix_ h_matrix_
       clustering_result
       set_c_ set_q_ set_n_ set_d_ set_kernel_type_ set_constant_
       set_u_converge set_v_converge set_x_matrix_ set_w_matrix_
       set_d_matrix_ set_d_matrix_to_the_minus_half_ set_k_matrix_
       set_u_matrix_ set_u_matrix_normalized_ set_l_matrix_ set_h_matrix_
       set_clustering_result] in H.

(** ** Configuration *)

Section Configuration.

Context {T : Type}.
Implicit Types s : @KDAC_state T.

Lemma CheckCQ_cases s :
  CheckCQ s = if (q_ s >? c_ s)%Z then Exits 1 CheckCQ_message
              else Returns (tt, s).
Proof. unfold CheckCQ; rewrite bind_get; destruct (q_ s >? c_ s)%Z; reflexivity. Qed.

Lemma SetC_cases (c : Z) s :
  SetC c s = if (q_ s >? c)%Z then Exits 1 CheckCQ_message
             else Returns (tt, set_c_ c s).
Proof. unfold SetC; rewrite bind_modify, CheckCQ_cases; reflexivity. Qed.

Lemma SetQ_cases (q : Z) s :
  SetQ q s = if (q >? c_ s)%Z then Exits 1 CheckCQ_message
             else Returns (tt, set_q_ q s).
Proof. unfold SetQ; rewrite bind_modify, CheckCQ_cases; reflexivity. Qed.

(** C3: a setter that returns leaves [q <= c]; a setter whose value breaks
    [q <= c] exits at once, inside the call, with the configuration error. *)
Theorem setters_keep_q_le_c (v : Z) s :
  invariant_or_fatal (set_c_ v s) (SetC v s) /\
  invariant_or_fatal (set_q_ v s) (SetQ v s).
Proof.
  rewrite SetC_cases, SetQ_cases; split.
  - destruct (Z.gtb_spec (q_ s) v); simpl; repeat split; lia.
  - destruct (Z.gtb_spec v (c_ s)); simpl; repeat split; lia.
Qed.

(** C7, as the code has it: a value that is zero or negative is judged like
    any other, against the other parameter only. *)
Theorem nonpositive_value_checked_against_other_only (v : Z) s :
  (v <= 0)%Z ->
  SetC v s = (if (q_ s >? v)%Z then Exits 1 CheckCQ_message
              else Returns (tt, set_c_ v s)) /\
  SetQ v s = (if (v >? c_ s)%Z then Exits 1 CheckCQ_message
              else Returns (tt, set_q_ v s)) /\
  ((q_ s <= v)%Z -> exited (SetC v s) = false) /\
  ((v <= c_ s)%Z -> exited (SetQ v s) = false).
Proof.
  intros _; rewrite SetC_cases, SetQ_cases; repeat split.
  - intros Hq; destruct (Z.gtb_spec (q_ s) v); [lia | reflexivity].
  - intros Hc; destruct (Z.gtb_spec v (c_ s)); [lia | reflexivity].
Qed.

(** C10: from c = 2, q = 2 the order of the two calls decides: [SetQ(3)]
    first exits, [SetC(3)] first reaches c = 3, q = 3. *)
Theorem setter_order_matters s :
  c_ s = 2%Z -> q_ s = 2%Z ->
  SetQ 3 s = Exits 1 CheckCQ_message /\
  (SetQ 3 ;; SetC 3) s = Exits 1 CheckCQ_message /\
  (SetC 3 ;; SetQ 3) s = Returns (tt, set_q_ 3 (set_c_ 3 s)) /\
  c_ (set_q_ 3 (set_c_ 3 s)) = 3%Z /\
  q_ (set_q_ 3 (set_c_ 3 s)) = 3%Z /\
  (q_ (set_q_ 3 (set_c_ 3 s)) <= c_ (set_q_ 3 (set_c_ 3 s)))%Z.
Proof.
  intros Hc Hq.
  assert (E : SetQ 3 s = Exits 1 CheckCQ_message)
    by (rewrite SetQ_cases, Hc; reflexivity).
  repeat split.
  - exact E.
  - unfold bind at 1; rewrite E; reflexivity.
  - unfold bind at 1; rewrite SetC_cases, Hq; simpl.
    rewrite SetQ_cases; reflexivity.
  - simpl; lia.
Qed.

End Configuration.

(** The constructor calls [SetC(2)] while [q_] still holds what the storage
    held: it returns exactly when that value is at most 2. *)
Lemma KDAC_cases {T} (storage : @KDAC_state T) :
  KDAC storage
  = if (q_ storage >? 2)%Z then Exits 1 CheckCQ_message
    else Returns (tt, set_constant_ 1 (set_kernel_type_ kGaussianKernel
                        (set_q_ 2 (set_c_ 2 storage)))).
Proof.
  unfold KDAC, bind at 1; rewrite SetC_cases.
  destruct (q_ storage >? 2)%Z; reflexivity.
Qed.

(** The constructor, run on zeroed storage, returns the default engine. *)
Lemma KDAC_default : KDAC zeroed_storage = Returns (tt, default_engine).
Proof. reflexivity. Qed.

Lemma nonpositive_value_witness :
  (0 <= 0)%Z /\ exited (SetQ 0 default_engine) = false.
Proof.
  split; [lia |].
  apply (nonpositive_value_checked_against_other_only 0 default_engine);
    simpl; lia.
Defined.

Lemma setter_order_witness :
  c_ default_engine = 2%Z /\ q_ default_engine = 2%Z /\
  SetQ 3 default_engine = Exits 1 CheckCQ_message.
Proof.
  split; [reflexivity | split; [reflexivity |]].
  apply (setter_order_matters default_engine); reflexivity.
Defined.

(** C7 as stated fails: [SetQ(0)] and [SetQ(-5)] on the default engine
    return, and so does [SetC(0)] once [q] is 0. *)
Lemma nonpositive_value_accepted :
  SetQ 0 default_engine = Returns (tt, set_q_ 0 default_engine) /\
  SetQ (-5) default_engine = Returns (tt, set_q_ (-5) default_engine) /\
  SetC 0 (set_q_ 0 default_engine)
  = Returns (tt, set_c_ 0 (set_q_ 0 default_engine)).
Proof. repeat split. Qed.

(** ** Matrix algebra *)

Section MatrixAlgebra.

Context {T : Type} {ST : Scalar T}.

Add Field T_field : (@Tfield T ST).

Lemma sum_upto_ext (n : nat) (f g : nat -> T) :
  (forall k, (k < n)%nat -> f k = g k) -> sum_upto n f = sum_upto n g.
Proof.
  induction n as [| n IH]; intros E; simpl; [reflexivity |].
  rewrite IH by (intros k Hk; apply E; lia).
  rewrite (E n) by lia; reflexivity.
Qed.

Lemma sum_upto_zero (n : nat) (f : nat -> T) :
  (forall k, (k < n)%nat -> f k = T0) -> sum_upto n f = T0.
Proof.
  induction n as [| n IH]; intros Z; simpl; [reflexivity |].
  rewrite IH by (intros k Hk; apply Z; lia).
  rewrite (Z n) by lia; ring.
Qed.

(** A sum with at most one non-zero term. *)
Lemma sum_upto_single (n i : nat) (f : nat -> T) :
  (i < n)%nat ->
  (forall k, (k < n)%nat -> k <> i -> f k = T0) ->
  sum_upto n f = f i.
Proof.
  induction n as [| n IH]; intros Hi Z; [lia |]; simpl.
  destruct (Nat.eq_dec i n) as [-> | Hne].
  - rewrite sum_upto_zero by (intros k Hk; apply Z; lia); ring.
  - rewrite IH by (try lia; intros k Hk Hki; apply Z; lia).
    rewrite (Z n) by lia; ring.
Qed.

(** Left product with a diagonal matrix scales the rows. *)
Lemma mmul_diagonal_l (D K : Matrix T) (i j : nat) :
  diagonal D -> (i < rows D)%nat ->
  coeff (mmul D K) i j = Tmul (coeff D i i) (coeff K i j).
Proof.
  intros [Hsq Hoff] Hi; simpl.
  rewrite (sum_upto_single (cols D) i); [reflexivity | lia |].
  intros k Hk Hki; rewrite Hoff by lia; ring.
Qed.

(** Right product with a diagonal matrix scales the columns. *)
Lemma mmul_diagonal_r (A D : Matrix T) (i j : nat) :
  diagonal D -> cols A = rows D -> (j < rows D)%nat ->
  coeff (mmul A D) i j = Tmul (coeff A i j) (coeff D j j).
Proof.
  intros [Hsq Hoff] Hdim Hj; simpl.
  rewrite (sum_upto_single (cols A) j); [reflexivity | lia |].
  intros k Hk Hkj; rewrite Hoff by lia; ring.
Qed.

(** The entries of [D * K * D] for a diagonal [D]. *)
Lemma sandwich_coeff (D K : Matrix T) (i j : nat) :
  diagonal D -> cols K = rows D -> (i < rows D)%nat -> (j < rows D)%nat ->
  coeff (mmul (mmul D K) D) i j
  = Tmul (Tmul (coeff D i i) (coeff K i j)) (coeff D j j).
Proof.
  intros HD Hdim Hi Hj.
  rewrite mmul_diagonal_r by (simpl; assumption).
  rewrite mmul_diagonal_l by assumption; reflexivity.
Qed.


Lemma Identity_diagonal (n : nat) : diagonal (Identity (T := T) n n).
Proof.
  split; [reflexivity |]; simpl; intros i j _ _ Hij.
  destruct (Nat.eqb_spec i j); [contradiction | reflexivity].
Qed.

(** [X * I = X] entry by entry. *)
Lemma mmul_Identity_r (X : Matrix T) :
  mat_eq (mmul X (Identity (cols X) (cols X))) X.
Proof.
  split; [reflexivity | split; [reflexivity |]]; simpl rows; simpl cols.
  intros i j Hi Hj.
  rewrite mmul_diagonal_r by (try apply Identity_diagonal; simpl; lia).
  simpl; rewrite Nat.eqb_refl; ring.
Qed.

End MatrixAlgebra.

(** ** Integers *)

Lemma wrap_int_small (z : Z) :
  (- 2 ^ 31 <= z < 2 ^ 31)%Z -> wrap_int z = z.
Proof.
  intros Hz; unfold wrap_int.
  rewrite Z.mod_small by lia; lia.
Qed.

Lemma Index_int_roundtrip (i : nat) :
  (Z.of_nat i < 2 ^ 31)%Z -> Index_of_int (int_of_Index i) = i.
Proof.
  intros Hi; unfold Index_of_int, int_of_Index.
  rewrite wrap_int_small by lia; apply Nat2Z.id.
Qed.

(** ** Initialisation, embedding update, fit *)

Section EngineProperties.

Context {T : Type} {AT : Arithmetic T} {CPU : @CpuOperations T} {SVD : @SvdSolver T}.
Implicit Types s : @KDAC_state T.
Implicit Types X : Matrix T.

Lemma Init_returns X s : Init X s = Returns (tt, Init_state X s).
Proof.
  unfold Init; rewrite !bind_modify, bind_get, !bind_modify.
  unfold modify, Init_state; cbv zeta.
  cbn [d_ n_ set_d_ set_n_ set_x_matrix_]; reflexivity.
Qed.

Lemma OptimizeW_returns s : OptimizeW s = Returns (tt, s).
Proof. reflexivity. Qed.

Lemma mmul_checked_ok (a b : Matrix T) s :
  cols a = rows b -> mmul_checked a b s = Returns (mmul a b, s).
Proof.
  intros E; unfold mmul_checked, bind, eigen_assert.
  rewrite (proj2 (Nat.eqb_eq _ _) E); reflexivity.
Qed.

Lemma mmul_checked_fails (a b : Matrix T) s :
  cols a <> rows b -> mmul_checked a b s = Fails EigenAssertion.
Proof.
  intros E; unfold mmul_checked, bind, eigen_assert.
  rewrite (proj2 (Nat.eqb_neq _ _) E); reflexivity.
Qed.

Lemma leftCols_checked_cases (m : Matrix T) (c : Z) s :
  leftCols_checked m c s
  = if ((0 <=? c)%Z && (c <=? Z.of_nat (cols m))%Z)%bool
    then Returns (leftCols m (Index_of_int c), s)
    else Fails EigenAssertion.
Proof.
  unfold leftCols_checked, bind, eigen_assert.
  destruct ((0 <=? c)%Z && (c <=? Z.of_nat (cols m))%Z)%bool; reflexivity.
Qed.

(** [OptimizeU] returns exactly when the preconditions of its Eigen
    operations hold, with the members of [OptimizeU_state]. *)
Lemma OptimizeU_cases s :
  OptimizeU s = if OptimizeU_defined s
                then Returns (tt, OptimizeU_state s)
                else Fails EigenAssertion.
Proof.
  unfold OptimizeU_defined, OptimizeU_state; cbv zeta.
  unfold OptimizeU; rewrite bind_get.
  destruct (Nat.eqb_spec (cols (x_matrix_ s)) (rows (w_matrix_ s)))
    as [E1 | N1]; cbn [andb];
    [| apply bind_Fails, mmul_checked_fails; exact N1].
  rewrite (bind_Returns _ _ _ _ _ (mmul_checked_ok _ _ _ E1)).
  rewrite bind_modify, bind_get; cbv zeta.
  rewrite !bind_modify, bind_get; fields.
  set (K := GenKernelMatrix (mmul (x_matrix_ s) (w_matrix_ s))
                            (kernel_type_ s) (constant_ s)).
  set (Dmh := snd (GenDegreeMatrix K)).
  destruct (Nat.eqb_spec (cols Dmh) (rows K)) as [E2 | N2]; cbn [andb];
    [| apply bind_Fails, mmul_checked_fails; exact N2].
  rewrite (bind_Returns _ _ _ _ _ (mmul_checked_ok _ _ _ E2)).
  destruct (Nat.eqb_spec (cols K) (rows Dmh)) as [E3 | N3]; cbn [andb];
    [| apply bind_Fails, (mmul_checked_fails (mmul Dmh K) Dmh); exact N3].
  rewrite (bind_Returns _ _ _ _ _ (mmul_checked_ok (mmul Dmh K) Dmh _ E3)).
  rewrite bind_modify, bind_get; fields.
  set (L := mmul (mmul Dmh K) Dmh).
  pose proof (leftCols_checked_cases (MatrixU L) (c_ s)) as EU.
  destruct ((0 <=? c_ s)%Z && (c_ s <=? Z.of_nat (cols (MatrixU L)))%Z)%bool;
    [| apply bind_Fails, EU].
  rewrite (bind_Returns _ _ _ _ _ (EU _)).
  rewrite bind_modify, bind_get; fields.
  reflexivity.
Qed.

Lemma OptimizeU_returns_inv s s' :
  OptimizeU s = Returns (tt, s') ->
  OptimizeU_defined s = true /\ s' = OptimizeU_state s.
Proof.
  rewrite OptimizeU_cases; destruct (OptimizeU_defined s); intros E.
  - apply Returns_state_inj in E; split; [reflexivity | congruence].
  - discriminate E.
Qed.

Lemma OptimizeU_returns s :
  OptimizeU_defined s = true -> OptimizeU s = Returns (tt, OptimizeU_state s).
Proof. intros E; rewrite OptimizeU_cases, E; reflexivity. Qed.

Lemma OptimizeU_fails s :
  OptimizeU_defined s = false -> OptimizeU s = Fails EigenAssertion.
Proof. intros E; rewrite OptimizeU_cases, E; reflexivity. Qed.

Lemma Fit_is_round_after_Init X s :
  Fit X s = (OptimizeU ;; OptimizeW) (Init_state X s).
Proof.
  unfold Fit; rewrite (bind_Returns _ _ _ _ _ (Init_returns X s)).
  reflexivity.
Qed.

Lemma round_cases s :
  (OptimizeU ;; OptimizeW) s = OptimizeU s.
Proof.
  unfold bind; rewrite OptimizeU_cases.
  destruct (OptimizeU_defined s); reflexivity.
Qed.

Lemma Fit_cases X s :
  Fit X s = if OptimizeU_defined (Init_state X s)
            then Returns (tt, OptimizeU_state (Init_state X s))
            else Fails EigenAssertion.
Proof. rewrite Fit_is_round_after_Init, round_cases; apply OptimizeU_cases. Qed.

Lemma Fit_returns X s :
  OptimizeU_defined (Init_state X s) = true ->
  Fit X s = Returns (tt, OptimizeU_state (Init_state X s)).
Proof. intros E; rewrite Fit_cases, E; reflexivity. Qed.

Lemma Fit_returns_inv X s s' :
  Fit X s = Returns (tt, s') ->
  OptimizeU_defined (Init_state X s) = true /\
  s' = OptimizeU_state (Init_state X s).
Proof.
  rewrite Fit_is_round_after_Init, round_cases; apply OptimizeU_returns_inv.
Qed.

(** C1, as the code has it: when the shapes fit the two products, the
    embedding update forms the projected data [X * W] and
    [L = (D^(-1/2) * K) * D^(-1/2)] entry by entry as written below; when
    moreover [0 <= c <= cols] of the decomposition's [U], it returns with
    [K], [D], [D^(-1/2)], [L], the first [c] columns of that [U] and their
    normalisation stored in this order; when [c] is outside that range it
    stops in [leftCols] and returns nothing. *)
Theorem OptimizeU_steps s :
  let X_proj := mmul (x_matrix_ s) (w_matrix_ s) in
  let K := GenKernelMatrix X_proj (kernel_type_ s) (constant_ s) in
  let D := fst (GenDegreeMatrix K) in
  let D_mh := snd (GenDegreeMatrix K) in
  let L := mmul (mmul D_mh K) D_mh in
  cols (x_matrix_ s) = rows (w_matrix_ s) ->
  cols D_mh = rows K -> cols K = rows D_mh ->
  (rows X_proj = rows (x_matrix_ s) /\ cols X_proj = cols (w_matrix_ s) /\
   forall i j,
     coeff X_proj i j
     = sum_upto (cols (x_matrix_ s))
         (fun k => Tmul (coeff (x_matrix_ s) i k)
                        (coeff (w_matrix_ s) k j))) /\
  (rows L = rows D_mh /\ cols L = cols D_mh /\
   forall i j,
     coeff L i j
     = sum_upto (cols K)
         (fun b => Tmul (sum_upto (cols D_mh)
                           (fun a => Tmul (coeff D_mh i a) (coeff K a b)))
                        (coeff D_mh b j))) /\
  ((0 <= c_ s <= Z.of_nat (cols (MatrixU L)))%Z ->
   exists s', OptimizeU s = Returns (tt, s') /\
     k_matrix_ s' = K /\ d_matrix_ s' = D /\
     d_matrix_to_the_minus_half_ s' = D_mh /\ l_matrix_ s' = L /\
     rows (u_matrix_ s') = rows (MatrixU L) /\
     Z.of_nat (cols (u_matrix_ s')) = c_ s /\
     (forall i j, coeff (u_matrix_ s') i j = coeff (MatrixU L) i j) /\
     u_matrix_normalized_ s' = Normalize (u_matrix_ s') 2 1 /\
     x_matrix_ s' = x_matrix_ s /\ w_matrix_ s' = w_matrix_ s /\
     c_ s' = c_ s) /\
  ((c_ s < 0 \/ Z.of_nat (cols (MatrixU L)) < c_ s)%Z ->
   OptimizeU s = Fails EigenAssertion).
Proof.
  cbv zeta; intros E1 E2 E3.
  assert (Hdef : OptimizeU_defined s
            = ((0 <=? c_ s)%Z &&
               (c_ s <=? Z.of_nat (cols (MatrixU
                  (mmul (mmul (snd (GenDegreeMatrix
                     (GenKernelMatrix (mmul (x_matrix_ s) (w_matrix_ s))
                        (kernel_type_ s) (constant_ s))))
                     (GenKernelMatrix (mmul (x_matrix_ s) (w_matrix_ s))
                        (kernel_type_ s) (constant_ s)))
                     (snd (GenDegreeMatrix
                        (GenKernelMatrix (mmul (x_matrix_ s) (w_matrix_ s))
                           (kernel_type_ s) (constant_ s))))))))%Z)%bool).
  { unfold OptimizeU_defined; cbv zeta.
    rewrite (proj2 (Nat.eqb_eq _ _) E1), (proj2 (Nat.eqb_eq _ _) E2),
      (proj2 (Nat.eqb_eq _ _) E3); reflexivity. }
  split; [split; [reflexivity | split; [reflexivity | reflexivity]] |].
  split; [split; [reflexivity | split; [reflexivity | reflexivity]] |].
  split.
  - intros [Hlo Hhi].
    exists (OptimizeU_state s); split.
    + apply OptimizeU_returns; rewrite Hdef.
      rewrite (proj2 (Z.leb_le _ _) Hlo), (proj2 (Z.leb_le _ _) Hhi).
      reflexivity.
    + unfold OptimizeU_state; cbv zeta; fields.
      do 5 (split; [reflexivity |]).
      split; [simpl; apply Z2Nat.id; exact Hlo |].
      do 4 (split; [reflexivity |]); reflexivity.
  - intros Hout; apply OptimizeU_fails; rewrite Hdef.
    destruct Hout as [Hneg | Hbig].
    + rewrite (proj2 (Z.leb_gt _ _) Hneg); reflexivity.
    + rewrite (proj2 (Z.leb_gt _ _) Hbig), Bool.andb_false_r; reflexivity.
Qed.






End EngineProperties.

(** ** Properties that rest on exact arithmetic *)

Section ExactEngineProperties.

Context {T : Type} {ST : Scalar T} {CPU : @CpuOperations T} {SVD : @SvdSolver T}.
Implicit Types s : @KDAC_state T.
Implicit Types X : Matrix T.

Add Field T_field' : (@Tfield T ST).


(** C5, as the code has it: [W] becomes the full [d] by [d] identity
    whatever [q] is, so that the projected data of the first round is [X]
    itself; this is the [d] by [q] block of left columns only when
    [q = d]. *)
Theorem Init_sets_W_to_full_identity X s :
  (Z.of_nat (cols X) < 2 ^ 31)%Z ->
  exists s', Init X s = Returns (tt, s') /\
    w_matrix_ s' = Identity (cols X) (cols X) /\
    mat_eq (mmul (x_matrix_ s') (w_matrix_ s')) X /\
    q_ s' = q_ s /\
    (mat_eq (w_matrix_ s')
            (leftCols (Identity (cols X) (cols X)) (Index_of_int (q_ s')))
     <-> Index_of_int (q_ s') = cols X).
Proof.
  intros Hd; exists (Init_state X s); split; [apply Init_returns |].
  unfold Init_state; cbv zeta; fields.
  rewrite Index_int_roundtrip by assumption.
  split; [reflexivity |].
  split; [apply mmul_Identity_r |].
  split; [reflexivity |].
  split.
  - intros (_ & Hc & _); simpl in Hc; congruence.
  - intros ->; repeat split.
Qed.

(** C8, as the code has it: [Init] stores the input and its dimensions,
    builds [H], zeroes the clustering result, clears both flags and sets
    [W]; it does not touch [K], [D], [D^(-1/2)], [L], [U], [U_normalized]
    or [Y], which keep the values of the previous fit until the embedding
    update of [Fit] overwrites the first six from the new input. *)
Theorem Init_effect X s :
  (Z.of_nat (rows X) < 2 ^ 31)%Z ->
  (Z.of_nat (cols X) < 2 ^ 31)%Z ->
  exists s', Init X s = Returns (tt, s') /\
    (x_matrix_ s' = X /\
     n_ s' = Z.of_nat (rows X) /\
     d_ s' = Z.of_nat (cols X) /\
     mat_eq (h_matrix_ s') (centering_spec (rows X)) /\
     u_converge s' = false /\ v_converge s' = false /\
     clustering_result s' = VZero (rows X) /\
     w_matrix_ s' = Identity (cols X) (cols X)) /\
    (k_matrix_ s' = k_matrix_ s /\
     d_matrix_ s' = d_matrix_ s /\
     d_matrix_to_the_minus_half_ s' = d_matrix_to_the_minus_half_ s /\
     l_matrix_ s' = l_matrix_ s /\
     u_matrix_ s' = u_matrix_ s /\
     u_matrix_normalized_ s' = u_matrix_normalized_ s /\
     y_matrix_ s' = y_matrix_ s) /\
    (forall s2, OptimizeU s' = Returns (tt, s2) ->
       let K := GenKernelMatrix (mmul X (Identity (cols X) (cols X)))
                                (kernel_type_ s) (constant_ s) in
       let D_mh := snd (GenDegreeMatrix K) in
       let L := mmul (mmul D_mh K) D_mh in
       let U := leftCols (MatrixU L) (Index_of_int (c_ s)) in
       k_matrix_ s2 = K /\
       d_matrix_ s2 = fst (GenDegreeMatrix K) /\
       d_matrix_to_the_minus_half_ s2 = D_mh /\
       l_matrix_ s2 = L /\
       u_matrix_ s2 = U /\
       u_matrix_normalized_ s2 = Normalize U 2 1).
Proof.
  intros Hn Hd; exists (Init_state X s); split; [apply Init_returns |].
  unfold Init_state; cbv zeta; fields.
  rewrite !Index_int_roundtrip by assumption.
  unfold int_of_Index; rewrite !wrap_int_small by lia.
  split; [| split].
  - repeat split.
    simpl; intros i j _ _.
    replace (Tmul (T := T) (Tdiv T1 (T_of_int (Z.of_nat (rows X)))) T1)
      with (Tdiv (T := T) T1 (T_of_int (Z.of_nat (rows X))));
      [reflexivity |].
    generalize (Tdiv (T := T) T1 (T_of_int (Z.of_nat (rows X))));
      intros t; ring.
  - repeat split.
  - intros s2 E; destruct (OptimizeU_returns_inv _ _ E) as [_ ->].
    unfold OptimizeU_state; cbv zeta; fields; repeat split.
Qed.

End ExactEngineProperties.

(** ** The engine run on exact rationals and on [double] *)

Lemma Fit_fitted_once : Fit X_2x1 default_engine = Returns (tt, fitted_once).
Proof. apply Fit_returns; vm_compute; reflexivity. Qed.

(** C1 as stated fails: with the default c = 2 and a 1 by 1 input, the
    decomposition of the 1 by 1 matrix [L] has a single column and the
    embedding update stops in [leftCols(2)]: no [U] is formed. *)
Lemma OptimizeU_stops_on_one_row :
  exists s,
    Init X_1x1 default_engine = Returns (tt, s) /\
    c_ s = 2%Z /\ rows (x_matrix_ s) = 1%nat /\
    cols (x_matrix_ s) = rows (w_matrix_ s) /\
    cols (MatrixU
            (mmul (mmul (snd (GenDegreeMatrix
                               (GenKernelMatrix
                                  (mmul (x_matrix_ s) (w_matrix_ s))
                                  (kernel_type_ s) (constant_ s))))
                        (GenKernelMatrix (mmul (x_matrix_ s) (w_matrix_ s))
                                         (kernel_type_ s) (constant_ s)))
                  (snd (GenDegreeMatrix
                          (GenKernelMatrix
                             (mmul (x_matrix_ s) (w_matrix_ s))
                             (kernel_type_ s) (constant_ s)))))) = 1%nat /\
    OptimizeU s = Fails EigenAssertion /\
    forall s', OptimizeU s <> Returns (tt, s').
Proof.
  exists (Init_state X_1x1 default_engine).
  split; [apply Init_returns |].
  split; [vm_compute; reflexivity |].
  split; [vm_compute; reflexivity |].
  split; [vm_compute; reflexivity |].
  split; [vm_compute; reflexivity |].
  assert (E : OptimizeU (Init_state X_1x1 default_engine)
              = Fails EigenAssertion)
    by (apply OptimizeU_fails; vm_compute; reflexivity).
  split; [exact E |].
  intros s'; rewrite E; discriminate.
Qed.

Lemma OptimizeU_steps_witness :
  let s := Init_state X_2x1 default_engine in
  cols (x_matrix_ s) = rows (w_matrix_ s) /\
  (0 <= c_ s)%Z /\
  exists s', OptimizeU s = Returns (tt, s') /\
             Z.of_nat (cols (u_matrix_ s')) = 2%Z /\
             rows (l_matrix_ s') = 2%nat.
Proof.
  cbv zeta.
  assert (E1 : cols (x_matrix_ (Init_state X_2x1 default_engine))
               = rows (w_matrix_ (Init_state X_2x1 default_engine)))
    by (vm_compute; reflexivity).
  assert (Hc : c_ (Init_state X_2x1 default_engine) = 2%Z)
    by (vm_compute; reflexivity).
  split; [exact E1 |].
  split; [rewrite Hc; lia |].
  destruct (OptimizeU_steps (Init_state X_2x1 default_engine) E1)
    as (_ & _ & Hret & _);
    [vm_compute; reflexivity | vm_compute; reflexivity |].
  destruct Hret as (s' & E & _ & _ & HD & HL & _ & Hcols & _).
  { rewrite Hc; split; [lia | vm_compute; discriminate]. }
  exists s'; split; [exact E |].
  split; [rewrite Hcols; exact Hc |].
  rewrite HL; vm_compute; reflexivity.
Defined.

(** C4: after a fit that returns, and before any fit, [Predict] flows off
    the end of its empty body: it returns no label vector and reports no
    precondition error. *)
Theorem Predict_returns_no_vector :
  exists s',
    Fit X_2x1 default_engine = Returns (tt, s') /\
    Predict s' = Fails MissingReturn /\
    (forall v s'', Predict s' <> Returns (v, s'')) /\
    Predict default_engine = Fails MissingReturn /\
    (forall status msg, Predict default_engine <> Exits status msg).
Proof.
  exists fitted_once.
  split; [apply Fit_fitted_once |].
  split; [reflexivity |].
  split; [intros v s''; discriminate |].
  split; [reflexivity | intros status msg; discriminate].
Qed.

(** C5 as stated fails: with c = 2, q = 2 and a 1 by 3 input, [W] is 3 by 3
    after [Init], not 3 by 2. *)
Lemma W_is_not_d_by_q :
  exists s', Init X_1x3 default_engine = Returns (tt, s') /\
    q_ s' = 2%Z /\ cols X_1x3 = 3%nat /\
    rows (w_matrix_ s') = 3%nat /\ cols (w_matrix_ s') = 3%nat /\
    cols (w_matrix_ s') <> Index_of_int (q_ s').
Proof.
  exists (Init_state X_1x3 default_engine); split; [apply Init_returns |].
  unfold Init_state; cbv zeta; fields.
  split; [reflexivity |]. split; [reflexivity |].
  split; [reflexivity |]. split; [reflexivity |].
  simpl; discriminate.
Qed.

Lemma Init_sets_W_witness :
  (Z.of_nat (cols X_1x3) < 2 ^ 31)%Z /\
  exists s', Init X_1x3 default_engine = Returns (tt, s') /\
             w_matrix_ s' = Identity 3 3.
Proof.
  split; [reflexivity |].
  destruct (Init_sets_W_to_full_identity X_1x3 default_engine)
    as (s' & E & HW & _); [reflexivity |].
  exists s'; split; [exact E | exact HW].
Defined.


(** C8 as stated fails: after a fit of the 2 by 1 input that returns,
    [Init] on another input leaves the 2 by 2 kernel matrix, [D], [L] and
    the embedding of that fit in place, where the same [Init] on a new
    engine leaves them 0 by 0. *)
Lemma Init_keeps_previous_fit :
  Fit X_2x1 default_engine = Returns (tt, fitted_once) /\
  exists s' t',
    Init X_1x3 fitted_once = Returns (tt, s') /\
    Init X_1x3 default_engine = Returns (tt, t') /\
    k_matrix_ s' = k_matrix_ fitted_once /\
    u_matrix_ s' = u_matrix_ fitted_once /\
    l_matrix_ s' = l_matrix_ fitted_once /\
    d_matrix_ s' = d_matrix_ fitted_once /\
    rows (x_matrix_ s') = 1%nat /\
    rows (k_matrix_ s') = 2%nat /\
    rows (u_matrix_ s') = 2%nat /\
    rows (l_matrix_ s') = 2%nat /\
    rows (d_matrix_ s') = 2%nat /\
    rows (k_matrix_ t') = 0%nat /\
    rows (u_matrix_ t') = 0%nat.
Proof.
  split; [apply Fit_fitted_once |].
  exists (Init_state X_1x3 fitted_once), (Init_state X_1x3 default_engine).
  split; [apply Init_returns |]. split; [apply Init_returns |].
  unfold fitted_once, OptimizeU_state, Init_state; cbv zeta; fields.
  do 10 (split; [reflexivity |]); reflexivity.
Qed.

Lemma Init_effect_witness :
  (Z.of_nat (rows X_1x3) < 2 ^ 31)%Z /\
  (Z.of_nat (cols X_1x3) < 2 ^ 31)%Z /\
  exists s', Init X_1x3 fitted_once = Returns (tt, s') /\
    n_ s' = 1%Z /\ d_ s' = 3%Z /\
    k_matrix_ s' = k_matrix_ fitted_once.
Proof.
  split; [reflexivity |]. split; [reflexivity |].
  destruct (Init_effect X_1x3 fitted_once)
    as (s' & E & (_ & Hn & Hd & _) & (HK & _) & _);
    [reflexivity | reflexivity |].
  exists s'; split; [exact E |].
  split; [exact Hn |]. split; [exact Hd | exact HK].
Defined.

Lemma OptimizeU_on_2x1 :
  OptimizeU (Init_state X_2x1 default_engine)
  = Returns (tt, OptimizeU_state (Init_state X_2x1 default_engine)).
Proof. apply OptimizeU_returns; vm_compute; reflexivity. Qed.



(** * Further properties of the engine *)

(** ** Equality of engine states *)

Lemma KDAC_state_ext {T} (s t : @KDAC_state T) :
  c_ s = c_ t -> q_ s = q_ t -> n_ s = n_ t -> d_ s = d_ t ->
  kernel_type_ s = kernel_type_ t -> constant_ s = constant_ t ->
  u_converge s = u_converge t -> v_converge s = v_converge t ->
  x_matrix_ s = x_matrix_ t -> w_matrix_ s = w_matrix_ t ->
  y_matrix_ s = y_matrix_ t -> d_matrix_ s = d_matrix_ t ->
  d_matrix_to_the_minus_half_ s = d_matrix_to_the_minus_half_ t ->
  k_matrix_ s = k_matrix_ t -> u_matrix_ s = u_matrix_ t ->
  u_matrix_normalized_ s = u_matrix_normalized_ t ->
  l_matrix_ s = l_matrix_ t -> h_matrix_ s = h_matrix_ t ->
  clustering_result s = clustering_result t ->
  s = t.
Proof.
  destruct s, t; cbn [c_ q_ n_ d_ kernel_type_ constant_ u_converge
    v_converge x_matrix_ w_matrix_ y_matrix_ d_matrix_
    d_matrix_to_the_minus_half_ k_matrix_ u_matrix_ u_matrix_normalized_
    l_matrix_ h_matrix_ clustering_result].
  intros; subst; reflexivity.
Qed.

(** Two states are shown equal member by member. *)
Ltac by_members :=
  apply KDAC_state_ext; fields; try reflexivity; try assumption.

(** ** Sequences of setter calls *)

Section Reconfiguration.

Context {T : Type}.
Implicit Types s : @KDAC_state T.

Lemma set_c_set_q_commute (c q : Z) s :
  set_q_ q (set_c_ c s) = set_c_ c (set_q_ q s).
Proof. by_members. Qed.

Lemma SetC_then_SetQ (c q : Z) s :
  (SetC c ;; SetQ q) s
  = if (q_ s >? c)%Z then Exits 1 CheckCQ_message
    else if (q >? c)%Z then Exits 1 CheckCQ_message
    else Returns (tt, set_q_ q (set_c_ c s)).
Proof.
  unfold bind at 1; rewrite SetC_cases.
  destruct (q_ s >? c)%Z; [reflexivity |].
  rewrite SetQ_cases; reflexivity.
Qed.

Lemma SetQ_then_SetC (c q : Z) s :
  (SetQ q ;; SetC c) s
  = if (q >? c_ s)%Z then Exits 1 CheckCQ_message
    else if (q >? c)%Z then Exits 1 CheckCQ_message
    else Returns (tt, set_c_ c (set_q_ q s)).
Proof.
  unfold bind at 1; rewrite SetQ_cases.
  destruct (q >? c_ s)%Z; [reflexivity |].
  rewrite SetC_cases; reflexivity.
Qed.

(** X4: between two valid configurations, [SetC] first works exactly when
    the old [q] fits under the new [c], [SetQ] first exactly when the new
    [q] fits under the old [c]; one of the two orders always works, and
    both end in the same state. *)
Theorem reconfigure_in_some_order (c q : Z) s :
  (q_ s <= c_ s)%Z -> (q <= c)%Z ->
  ((q_ s <= c)%Z ->
   (SetC c ;; SetQ q) s = Returns (tt, set_q_ q (set_c_ c s))) /\
  ((q_ s > c)%Z -> (SetC c ;; SetQ q) s = Exits 1 CheckCQ_message) /\
  ((q <= c_ s)%Z ->
   (SetQ q ;; SetC c) s = Returns (tt, set_q_ q (set_c_ c s))) /\
  ((q > c_ s)%Z -> (SetQ q ;; SetC c) s = Exits 1 CheckCQ_message) /\
  ((q_ s <= c)%Z \/ (q <= c_ s)%Z).
Proof.
  intros Hs Ht.
  rewrite SetC_then_SetQ, SetQ_then_SetC, set_c_set_q_commute.
  destruct (Z.gtb_spec (q_ s) c), (Z.gtb_spec q (c_ s)),
    (Z.gtb_spec q c); try lia;
    (split; [intros; try reflexivity; lia |]);
    (split; [intros; try reflexivity; lia |]);
    (split; [intros; try reflexivity; lia |]);
    (split; [intros; try reflexivity; lia |]); lia.
Qed.

End Reconfiguration.

(** ** Client programs *)

Section Programs.

Context {T : Type} {AT : Arithmetic T} {CPU : @CpuOperations T} {SVD : @SvdSolver T}.
Implicit Types s : @KDAC_state T.
Implicit Types cs : list (@call T).

(** X1: the constructor calls [SetC(2)] before [q_] is assigned. It
    returns exactly when the value [q_] held before is at most 2, and then
    with c = 2, q = 2, the Gaussian kernel, the constant 1 and every other
    member as it was; otherwise it exits with the error of [CheckCQ]. *)
Theorem KDAC_constructor_outcome (storage : @KDAC_state T) :
  match KDAC storage with
  | Returns (_, s) =>
      (q_ storage <= 2)%Z /\
      s = {| c_ := 2; q_ := 2; n_ := n_ storage; d_ := d_ storage;
             kernel_type_ := kGaussianKernel; constant_ := 1;
             u_converge := u_converge storage;
             v_converge := v_converge storage;
             x_matrix_ := x_matrix_ storage;
             w_matrix_ := w_matrix_ storage;
             y_matrix_ := y_matrix_ storage;
             d_matrix_ := d_matrix_ storage;
             d_matrix_to_the_minus_half_ :=
               d_matrix_to_the_minus_half_ storage;
             k_matrix_ := k_matrix_ storage;
             u_matrix_ := u_matrix_ storage;
             u_matrix_normalized_ := u_matrix_normalized_ storage;
             l_matrix_ := l_matrix_ storage;
             h_matrix_ := h_matrix_ storage;
             clustering_result := clustering_result storage |}
  | Exits status msg =>
      (q_ storage > 2)%Z /\ status = 1%Z /\ msg = CheckCQ_message
  | Fails _ => False
  end.
Proof.
  rewrite KDAC_cases.
  destruct (Z.gtb_spec (q_ storage) 2).
  - split; [lia | split; reflexivity].
  - split; [lia |].
    apply KDAC_state_ext; fields; reflexivity.
Qed.

Lemma do_call_cases (c : call) s :
  (exists s', do_call c s = Returns (tt, s') /\
              (q_ s' = q_ s /\ c_ s' = c_ s \/
               is_setter c = true /\ (q_ s' <= c_ s')%Z)) \/
  (do_call c s = Exits 1 CheckCQ_message /\ is_setter c = true) \/
  (do_call c s = Fails EigenAssertion /\ is_setter c = false).
Proof.
  destruct c; cbn [do_call is_setter].
  - rewrite SetC_cases; destruct (Z.gtb_spec (q_ s) c).
    + right; left; split; reflexivity.
    + left; eexists; split; [reflexivity |].
      right; split; [reflexivity | fields; lia].
  - rewrite SetQ_cases; destruct (Z.gtb_spec q (c_ s)).
    + right; left; split; reflexivity.
    + left; eexists; split; [reflexivity |].
      right; split; [reflexivity | fields; lia].
  - left; eexists; split; [reflexivity |].
    left; fields; split; reflexivity.
  - rewrite Fit_cases.
    destruct (OptimizeU_defined (Init_state input_matrix s)).
    + left; eexists; split; [reflexivity |].
      left; unfold OptimizeU_state, Init_state; cbv zeta; fields.
      split; reflexivity.
    + right; right; split; reflexivity.
  - left; exists s; split; [reflexivity | left; split; reflexivity].
  - left; exists s; split; [reflexivity | left; split; reflexivity].
  - left; exists s; split; [reflexivity | left; split; reflexivity].
  - left; exists s; split; [reflexivity | left; split; reflexivity].
  - left; exists s; split; [reflexivity | left; split; reflexivity].
  - left; exists s; split; [reflexivity | left; split; reflexivity].
  - left; exists s; split; [reflexivity | left; split; reflexivity].
Qed.

Lemma do_calls_keep_q_le_c cs : forall s s',
  (q_ s <= c_ s)%Z -> do_calls cs s = Returns (tt, s') ->
  (q_ s' <= c_ s')%Z.
Proof.
  induction cs as [| c cs IH]; intros s s' Hs E; cbn [do_calls] in E.
  - apply Returns_state_inj in E; subst s'; exact Hs.
  - destruct (do_call_cases c s)
      as [(s1 & E1 & H1) | [(E1 & _) | (E1 & _)]];
      unfold bind in E; rewrite E1 in E; try discriminate E.
    apply (IH s1 s'); [| exact E].
    destruct H1 as [(Hq & Hc) | (_ & H1)]; [rewrite Hq, Hc; exact Hs | exact H1].
Qed.

Lemma do_calls_exit cs : forall s status msg,
  do_calls cs s = Exits status msg ->
  status = 1%Z /\ msg = CheckCQ_message /\ existsb is_setter cs = true.
Proof.
  induction cs as [| c cs IH]; intros s status msg E; cbn [do_calls] in E.
  - discriminate E.
  - cbn [existsb].
    destruct (do_call_cases c s)
      as [(s1 & E1 & _) | [(E1 & Hc) | (E1 & _)]];
      unfold bind in E; rewrite E1 in E; try discriminate E.
    + destruct (IH _ _ _ E) as (H1 & H2 & H3).
      rewrite H3, Bool.orb_true_r; repeat split; assumption.
    + injection E as <- <-; rewrite Hc; repeat split.
Qed.

(** X2: whatever setters, fits and accessors a client calls after
    constructing the engine, if they all return then [q <= c] holds in the
    engine at the end. *)
Theorem program_keeps_q_le_c cs (storage s' : @KDAC_state T) :
  program cs storage = Returns (tt, s') -> (q_ s' <= c_ s')%Z.
Proof.
  unfold program, bind at 1; rewrite KDAC_cases.
  destruct (q_ storage >? 2)%Z; [discriminate |].
  apply do_calls_keep_q_le_c; fields; lia.
Qed.

(** X3: a client program that ends through [exit] ends with status 1 and
    the message of [CheckCQ], raised by the constructor or by a setter:
    [Fit], [SetKernel] and the accessors contain no call to [exit]. *)
Theorem program_exit_is_CheckCQ cs (storage : @KDAC_state T) status msg :
  program cs storage = Exits status msg ->
  status = 1%Z /\ msg = CheckCQ_message /\
  ((q_ storage > 2)%Z \/ existsb is_setter cs = true).
Proof.
  unfold program, bind at 1; rewrite KDAC_cases.
  destruct (Z.gtb_spec (q_ storage) 2).
  - intros E; injection E as <- <-.
    split; [reflexivity | split; [reflexivity | left; lia]].
  - intros E; destruct (do_calls_exit _ _ _ _ E) as (H1 & H2 & H3).
    repeat split; try assumption; right; assumption.
Qed.

End Programs.

(** ** Fitting, composed *)

Section FitComposition.

Context {T : Type} {AT : Arithmetic T} {CPU : @CpuOperations T} {SVD : @SvdSolver T}.
Implicit Types s t : @KDAC_state T.
Implicit Types X : Matrix T.

Ltac open_states := unfold OptimizeU_state, Init_state; cbv zeta.

Lemma OptimizeU_state_idempotent s :
  OptimizeU_state (OptimizeU_state s) = OptimizeU_state s.
Proof. open_states; by_members. Qed.

Lemma OptimizeU_defined_idempotent s :
  OptimizeU_defined (OptimizeU_state s) = OptimizeU_defined s.
Proof. unfold OptimizeU_defined; open_states; fields; reflexivity. Qed.

Lemma Fit_state_history s t X :
  same_configuration s t -> y_matrix_ s = y_matrix_ t ->
  OptimizeU_state (Init_state X s) = OptimizeU_state (Init_state X t).
Proof.
  intros (Hc & Hq & Hk & Hcst) Hy; open_states.
  apply KDAC_state_ext; fields; rewrite ?Hc, ?Hk, ?Hcst;
    try reflexivity; assumption.
Qed.

Lemma Fit_defined_history s t X :
  same_configuration s t ->
  OptimizeU_defined (Init_state X s) = OptimizeU_defined (Init_state X t).
Proof.
  intros (Hc & Hq & Hk & Hcst).
  unfold OptimizeU_defined; open_states; fields.
  rewrite Hc, Hk, Hcst; reflexivity.
Qed.

Lemma Fit_state_configuration s X :
  same_configuration (OptimizeU_state (Init_state X s)) s /\
  y_matrix_ (OptimizeU_state (Init_state X s)) = y_matrix_ s.
Proof.
  open_states; unfold same_configuration; fields.
  split; [| reflexivity].
  repeat (split; [reflexivity |]); reflexivity.
Qed.

Lemma SetKernel_returns kernel_type constant s :
  SetKernel kernel_type constant s
  = Returns (tt, set_constant_ constant (set_kernel_type_ kernel_type s)).
Proof. reflexivity. Qed.

Lemma Fit_history s t X :
  same_configuration s t -> y_matrix_ s = y_matrix_ t ->
  Fit X s = Fit X t.
Proof.
  intros Hcfg Hy; rewrite !Fit_cases.
  rewrite (Fit_defined_history s t X Hcfg),
    (Fit_state_history s t X Hcfg Hy); reflexivity.
Qed.

(** X5: what [Fit] leaves in the engine depends on the input and on the
    configuration only (and on [Y], which nothing writes): two engines
    with the same [c], [q], kernel type and constant end in the same state,
    whatever they fitted before. *)
Theorem Fit_forgets_history s t X :
  same_configuration s t -> y_matrix_ s = y_matrix_ t ->
  Fit X s = Fit X t.
Proof. apply Fit_history. Qed.

(** X6: fitting the same input twice in a row is the same as fitting it
    once, whether [Fit] returns or stops; a [Fit] that returns has changed
    no configuration member. *)
Theorem Fit_twice_is_Fit_once s X :
  (Fit X ;; Fit X) s = Fit X s /\
  match Fit X s with
  | Returns (_, s') => same_configuration s' s
  | _ => True
  end.
Proof.
  destruct (Fit_state_configuration s X) as (Hcfg & Hy).
  split.
  - destruct (OptimizeU_defined (Init_state X s)) eqn:E.
    + rewrite (bind_Returns _ _ _ _ _ (Fit_returns X s E)).
      apply Fit_history; assumption.
    + pose proof (Fit_cases X s) as EF; rewrite E in EF.
      rewrite (bind_Fails _ _ _ _ EF), EF; reflexivity.
  - rewrite Fit_cases.
    destruct (OptimizeU_defined (Init_state X s)); [exact Hcfg | exact I].
Qed.

Lemma rounds_after_one (k : nat) : forall s,
  rounds (S k) s = OptimizeU s.
Proof.
  induction k as [| k IH]; intros s.
  - cbn [rounds]; destruct (OptimizeU_defined s) eqn:E.
    + rewrite (bind_Returns _ _ _ _ _ (OptimizeU_returns s E)).
      unfold OptimizeW; rewrite bind_ret.
      symmetry; apply OptimizeU_returns; exact E.
    + rewrite (bind_Fails _ _ _ _ (OptimizeU_fails s E)).
      symmetry; apply OptimizeU_fails; exact E.
  - change (rounds (S (S k)))
      with (OptimizeU ;; OptimizeW ;; rounds (S k)).
    destruct (OptimizeU_defined s) eqn:E.
    + rewrite (bind_Returns _ _ _ _ _ (OptimizeU_returns s E)).
      unfold OptimizeW; rewrite bind_ret, IH.
      rewrite !OptimizeU_cases, OptimizeU_defined_idempotent, E.
      rewrite OptimizeU_state_idempotent; reflexivity.
    + rewrite (bind_Fails _ _ _ _ (OptimizeU_fails s E)).
      symmetry; apply OptimizeU_fails; exact E.
Qed.

(** X7: one round is a fixed point. Any number of further EMBED and PROJECT
    rounds after [Fit] leaves the engine as [Fit] left it, and [k + 1]
    rounds do what one embedding update does. *)
Theorem further_rounds_change_nothing (k : nat) s X :
  (Fit X ;; rounds k) s = Fit X s /\
  rounds (S k) s = OptimizeU s.
Proof.
  split; [| apply rounds_after_one].
  destruct (OptimizeU_defined (Init_state X s)) eqn:E.
  - rewrite (bind_Returns _ _ _ _ _ (Fit_returns X s E)).
    destruct k as [| k]; [symmetry; apply Fit_returns; exact E |].
    rewrite rounds_after_one, OptimizeU_cases.
    rewrite OptimizeU_defined_idempotent, E, OptimizeU_state_idempotent.
    symmetry; apply Fit_returns; exact E.
  - pose proof (Fit_cases X s) as EF; rewrite E in EF.
    rewrite (bind_Fails _ _ _ _ EF), EF; reflexivity.
Qed.

(** X8: after [Fit] the accessors return matrices that fit together:
    [GetD] and [GetDToTheMinusHalf] are the degree matrices of [GetK],
    [GetL] is their product with [GetK], [GetU] its leading [c] columns of
    the decomposition and [GetUNormalized] the normalisation of [GetU];
    no accessor changes the engine. *)
Theorem accessors_after_Fit s s' X :
  Fit X s = Returns (tt, s') ->
  exists K D D_mh L U U_n,
    GetK s' = Returns (K, s') /\
    GetD s' = Returns (D, s') /\
    GetDToTheMinusHalf s' = Returns (D_mh, s') /\
    GetL s' = Returns (L, s') /\
    GetU s' = Returns (U, s') /\
    GetUNormalized s' = Returns (U_n, s') /\
    GenDegreeMatrix K = (D, D_mh) /\
    L = mmul (mmul D_mh K) D_mh /\
    U = leftCols (MatrixU L) (Index_of_int (c_ s)) /\
    U_n = Normalize U 2 1.
Proof.
  intros E; destruct (Fit_returns_inv _ _ _ E) as [_ ->].
  do 6 eexists.
  do 6 (split; [reflexivity |]).
  open_states; fields.
  split; [apply surjective_pairing |].
  split; [reflexivity |]. split; reflexivity.
Qed.

Lemma OptimizeU_state_facts s :
  OptimizeU_defined s = true ->
  (0 <= c_ s
   <= Z.of_nat (cols (MatrixU (l_matrix_ (OptimizeU_state s)))))%Z /\
  k_matrix_ (OptimizeU_state s)
  = GenKernelMatrix (mmul (x_matrix_ s) (w_matrix_ s))
                    (kernel_type_ s) (constant_ s) /\
  Z.of_nat (cols (u_matrix_ (OptimizeU_state s))) = c_ s /\
  rows (u_matrix_ (OptimizeU_state s))
  = rows (MatrixU (l_matrix_ (OptimizeU_state s))) /\
  c_ (OptimizeU_state s) = c_ s /\ q_ (OptimizeU_state s) = q_ s /\
  kernel_type_ (OptimizeU_state s) = kernel_type_ s /\
  constant_ (OptimizeU_state s) = constant_ s.
Proof.
  unfold OptimizeU_defined, OptimizeU_state; cbv zeta; fields.
  intros Hdef.
  apply andb_prop in Hdef; destruct Hdef as [_ Hdef].
  apply andb_prop in Hdef; destruct Hdef as [_ Hdef].
  apply andb_prop in Hdef; destruct Hdef as [_ Hdef].
  apply andb_prop in Hdef; destruct Hdef as [Hlo Hhi].
  apply Z.leb_le in Hlo, Hhi.
  split; [split; assumption |].
  split; [reflexivity |].
  split; [simpl; apply Z2Nat.id; assumption |].
  repeat (split; [reflexivity |]); reflexivity.
Qed.

Lemma Init_state_facts X s :
  (Z.of_nat (cols X) < 2 ^ 31)%Z ->
  x_matrix_ (Init_state X s) = X /\
  w_matrix_ (Init_state X s) = Identity (cols X) (cols X) /\
  c_ (Init_state X s) = c_ s /\ q_ (Init_state X s) = q_ s /\
  kernel_type_ (Init_state X s) = kernel_type_ s /\
  constant_ (Init_state X s) = constant_ s.
Proof.
  intros Hd; unfold Init_state; cbv zeta; fields.
  rewrite Index_int_roundtrip by assumption.
  repeat (split; [reflexivity |]); reflexivity.
Qed.

(** X9: the configuration in force is the one the next fit uses: when
    [SetC(c)], [SetKernel(kernel_type, constant)] and [Fit(X)] all return,
    [q <= c] held at [SetC], [c] lies between 0 and the number of columns
    of the decomposition, the kernel matrix is the one of that kernel and
    [U] has exactly [c] columns. *)
Theorem Fit_uses_configuration (c : Z) kernel_type constant s s' X :
  (SetC c ;; SetKernel kernel_type constant ;; Fit X) s = Returns (tt, s') ->
  (Z.of_nat (cols X) < 2 ^ 31)%Z ->
  (q_ s <= c)%Z /\
  (0 <= c <= Z.of_nat (cols (MatrixU (l_matrix_ s'))))%Z /\
  k_matrix_ s'
  = GenKernelMatrix (mmul X (Identity (cols X) (cols X)))
                    kernel_type constant /\
  Z.of_nat (cols (u_matrix_ s')) = c /\
  rows (u_matrix_ s') = rows (MatrixU (l_matrix_ s')) /\
  c_ s' = c /\ q_ s' = q_ s /\
  kernel_type_ s' = kernel_type /\ constant_ s' = constant.
Proof.
  intros E Hd.
  pose proof (SetC_cases c s) as EC.
  destruct (Z.gtb_spec (q_ s) c) as [Hgt | Hle].
  { rewrite (bind_Exits _ _ _ _ _ EC) in E; discriminate E. }
  rewrite (bind_Returns _ _ _ _ _ EC) in E.
  rewrite (bind_Returns _ _ _ _ _ (SetKernel_returns _ _ _)) in E.
  set (s0 := set_constant_ constant
               (set_kernel_type_ kernel_type (set_c_ c s))) in E.
  destruct (Fit_returns_inv _ _ _ E) as [Hdef ->].
  destruct (OptimizeU_state_facts _ Hdef)
    as (Hrange & HK & Hcols & Hrows & Hc & Hq & Hkt & Hcst).
  destruct (Init_state_facts X s0 Hd)
    as (Hx & Hw & Hc0 & Hq0 & Hkt0 & Hcst0).
  rewrite Hx, Hw, Hkt0, Hcst0 in HK.
  rewrite Hc0 in Hrange, Hcols, Hc.
  rewrite Hq0 in Hq; rewrite Hkt0 in Hkt; rewrite Hcst0 in Hcst.
  assert (F : c_ s0 = c /\ q_ s0 = q_ s /\
              kernel_type_ s0 = kernel_type /\ constant_ s0 = constant)
    by (unfold s0; fields; repeat (split; [reflexivity |]); reflexivity).
  destruct F as (Fc & Fq & Fkt & Fcst).
  rewrite Fc in Hrange, Hcols, Hc.
  rewrite Fq in Hq; rewrite Fkt in Hkt, HK; rewrite Fcst in Hcst, HK.
  split; [assumption |].
  split; [exact Hrange |].
  split; [exact HK |].
  split; [exact Hcols |].
  split; [exact Hrows |].
  split; [exact Hc |].
  split; [exact Hq |].
  split; [exact Hkt | exact Hcst].
Qed.

(** X10: [Fit] never computes labels: when it returns, the stored
    clustering result is the zero vector of length [n]. *)
Theorem Fit_leaves_zero_clustering_result s s' X :
  Fit X s = Returns (tt, s') ->
  (Z.of_nat (rows X) < 2 ^ 31)%Z ->
  size (clustering_result s') = rows X /\
  forall i, vcoeff (clustering_result s') i = T0.
Proof.
  intros E Hn; destruct (Fit_returns_inv _ _ _ E) as [_ ->].
  open_states; fields.
  rewrite Index_int_roundtrip by assumption.
  split; [reflexivity | intros i; reflexivity].
Qed.

Lemma wrap_int_range (z : Z) : (- 2 ^ 31 <= wrap_int z < 2 ^ 31)%Z.
Proof.
  unfold wrap_int.
  pose proof (Z.mod_pos_bound (z + 2 ^ 31) (2 ^ 32)); lia.
Qed.

(** X11: [Init] narrows the dimensions to [int]: the stored [n_] and [d_]
    are always in the range of [int], congruent to the true dimensions
    modulo 2^32, and equal to them exactly when these are below 2^31. *)
Theorem Init_narrows_dimensions s s' X :
  Init X s = Returns (tt, s') ->
  (- 2 ^ 31 <= n_ s' < 2 ^ 31)%Z /\
  (- 2 ^ 31 <= d_ s' < 2 ^ 31)%Z /\
  (n_ s' mod 2 ^ 32 = Z.of_nat (rows X) mod 2 ^ 32)%Z /\
  (d_ s' mod 2 ^ 32 = Z.of_nat (cols X) mod 2 ^ 32)%Z /\
  (n_ s' = Z.of_nat (rows X) <-> (Z.of_nat (rows X) < 2 ^ 31)%Z) /\
  (d_ s' = Z.of_nat (cols X) <-> (Z.of_nat (cols X) < 2 ^ 31)%Z).
Proof.
  rewrite Init_returns; intros E.
  apply Returns_state_inj in E; subst s'.
  unfold Init_state; cbv zeta; fields; unfold int_of_Index.
  assert (Hmod : forall z, (wrap_int z mod 2 ^ 32 = z mod 2 ^ 32)%Z).
  { intros z; unfold wrap_int.
    rewrite Zminus_mod, Zmod_mod, <- Zminus_mod.
    f_equal; lia. }
  assert (Hiff : forall z, (0 <= z)%Z ->
            (wrap_int z = z <-> (z < 2 ^ 31)%Z)).
  { intros z Hz; split.
    - intros Hw; pose proof (wrap_int_range z); lia.
    - intros Hlt; apply wrap_int_small; lia. }
  split; [apply wrap_int_range |]. split; [apply wrap_int_range |].
  split; [apply Hmod |]. split; [apply Hmod |].
  split; apply Hiff; lia.
Qed.

End FitComposition.

Section ExactEntries.

Context {T : Type} {ST : Scalar T} {CPU : @CpuOperations T} {SVD : @SvdSolver T}.
Implicit Types s : @KDAC_state T.

(** X12: the entries of [L]. When [D^(-1/2)] is diagonal and of the size
    of a square [K], the embedding update stores
    [L(i, j) = D^(-1/2)(i, i) * K(i, j) * D^(-1/2)(j, j)]. *)
Theorem L_entries s s' (i j : nat) :
  OptimizeU s = Returns (tt, s') ->
  diagonal (d_matrix_to_the_minus_half_ s') ->
  rows (d_matrix_to_the_minus_half_ s') = rows (k_matrix_ s') ->
  cols (k_matrix_ s') = rows (k_matrix_ s') ->
  (i < rows (k_matrix_ s'))%nat -> (j < rows (k_matrix_ s'))%nat ->
  rows (l_matrix_ s') = rows (k_matrix_ s') /\
  cols (l_matrix_ s') = rows (k_matrix_ s') /\
  coeff (l_matrix_ s') i j
  = Tmul (Tmul (coeff (d_matrix_to_the_minus_half_ s') i i)
               (coeff (k_matrix_ s') i j))
         (coeff (d_matrix_to_the_minus_half_ s') j j).
Proof.
  intros E; destruct (OptimizeU_returns_inv _ _ E) as [_ ->].
  unfold OptimizeU_state; cbv zeta; fields.
  intros HD Hrows Hsq Hi Hj.
  split; [exact Hrows |].
  split; [simpl; destruct HD as [HD _]; lia |].
  apply sandwich_coeff; try assumption; lia.
Qed.

End ExactEntries.

(** ** The further properties on exact rationals *)

Lemma SetC_returns {T} (c : Z) (s : @KDAC_state T) :
  (q_ s <= c)%Z -> SetC c s = Returns (tt, set_c_ c s).
Proof.
  intros H; rewrite SetC_cases.
  destruct (Z.gtb_spec (q_ s) c); [lia | reflexivity].
Qed.

Lemma SetQ_returns {T} (q : Z) (s : @KDAC_state T) :
  (q <= c_ s)%Z -> SetQ q s = Returns (tt, set_q_ q s).
Proof.
  intros H; rewrite SetQ_cases.
  destruct (Z.gtb_spec q (c_ s)); [lia | reflexivity].
Qed.

Ltac le_members :=
  unfold default_engine, zeroed_storage, uninitialized; fields; lia.

Lemma Fit_on_2x1 :
  Fit X_2x1 default_engine
  = Returns (tt, OptimizeU_state (Init_state X_2x1 default_engine)).
Proof. apply Fit_returns; vm_compute; reflexivity. Qed.

Lemma program_keeps_q_le_c_witness :
  let s' := set_c_ 1 (OptimizeU_state
                        (Init_state X_2x1 (set_q_ 1 default_engine))) in
  program [Call_SetQ 1; Call_Fit X_2x1; Call_SetC 1] zeroed_storage
  = Returns (tt, s') /\
  (q_ s' <= c_ s')%Z.
Proof.
  cbv zeta.
  assert (E : program [Call_SetQ 1; Call_Fit X_2x1; Call_SetC 1]
                zeroed_storage
              = Returns (tt, set_c_ 1 (OptimizeU_state
                        (Init_state X_2x1 (set_q_ 1 default_engine))))).
  { assert (Hdef : OptimizeU_defined
                     (Init_state X_2x1 (set_q_ 1 default_engine)) = true)
      by (vm_compute; reflexivity).
    unfold program.
    rewrite (bind_Returns _ _ _ _ _ KDAC_default).
    cbn [do_calls do_call].
    rewrite (bind_Returns _ _ _ _ _
               (SetQ_returns 1 default_engine ltac:(le_members))).
    rewrite (bind_Returns _ _ _ _ _
               (Fit_returns X_2x1 (set_q_ 1 default_engine) Hdef)).
    erewrite bind_Returns; [reflexivity |].
    apply SetC_returns.
    unfold OptimizeU_state, Init_state; cbv zeta; le_members. }
  split; [exact E |].
  exact (program_keeps_q_le_c _ _ _ E).
Defined.

Lemma program_exit_is_CheckCQ_witness :
  program [Call_Fit X_2x1; Call_SetQ 3; Call_GetU] zeroed_storage
  = Exits 1 CheckCQ_message /\
  existsb is_setter [Call_Fit X_2x1; Call_SetQ 3; Call_GetU] = true.
Proof.
  assert (E : program [Call_Fit X_2x1; Call_SetQ 3; Call_GetU] zeroed_storage
              = Exits 1 CheckCQ_message).
  { unfold program.
    rewrite (bind_Returns _ _ _ _ _ KDAC_default).
    cbn [do_calls do_call].
    rewrite (bind_Returns _ _ _ _ _ Fit_on_2x1).
    apply bind_Exits; rewrite SetQ_cases.
    unfold OptimizeU_state, Init_state; cbv zeta; fields; reflexivity. }
  split; [exact E |].
  destruct (program_exit_is_CheckCQ _ _ _ _ E) as (_ & _ & [H | H]).
  - exfalso; revert H; le_members.
  - exact H.
Defined.

Lemma reconfigure_in_some_order_witness :
  (q_ default_engine <= c_ default_engine)%Z /\ (5 <= 7)%Z /\
  (SetC 7 ;; SetQ 5) default_engine
  = Returns (tt, set_q_ 5 (set_c_ 7 default_engine)) /\
  (SetQ 5 ;; SetC 7) default_engine = Exits 1 CheckCQ_message.
Proof.
  assert (H1 : (q_ default_engine <= c_ default_engine)%Z) by le_members.
  assert (H2 : (5 <= 7)%Z) by lia.
  destruct (reconfigure_in_some_order 7 5 default_engine H1 H2)
    as (HCQ & _ & _ & HQC & _).
  split; [exact H1 | split; [exact H2 |]].
  split; [apply HCQ | apply HQC]; le_members.
Defined.

Lemma Fit_forgets_history_witness :
  same_configuration fitted_once default_engine /\
  y_matrix_ fitted_once = y_matrix_ default_engine /\
  Fit X_2x0 fitted_once = Fit X_2x0 default_engine /\
  exited (Fit X_2x0 default_engine) = false.
Proof.
  destruct (Fit_state_configuration default_engine X_2x1) as (Hcfg & Hy).
  split; [exact Hcfg | split; [exact Hy |]].
  split; [exact (Fit_forgets_history fitted_once default_engine X_2x0
                   Hcfg Hy) |].
  rewrite (Fit_returns X_2x0 default_engine) by (vm_compute; reflexivity).
  reflexivity.
Defined.

Lemma accessors_after_Fit_witness :
  Fit X_2x1 default_engine
  = Returns (tt, OptimizeU_state (Init_state X_2x1 default_engine)) /\
  exists K L,
    GetK (OptimizeU_state (Init_state X_2x1 default_engine))
    = Returns (K, OptimizeU_state (Init_state X_2x1 default_engine)) /\
    GetL (OptimizeU_state (Init_state X_2x1 default_engine))
    = Returns (L, OptimizeU_state (Init_state X_2x1 default_engine)) /\
    L = mmul (mmul (snd (GenDegreeMatrix K)) K) (snd (GenDegreeMatrix K)).
Proof.
  split; [apply Fit_on_2x1 |].
  destruct (accessors_after_Fit default_engine _ X_2x1 Fit_on_2x1)
    as (K & D & D_mh & L & U & U_n & HK & _ & _ & HL & _ & _ & HG & HLeq & _).
  exists K, L; split; [exact HK | split; [exact HL |]].
  rewrite HG; exact HLeq.
Defined.

Lemma Fit_uses_configuration_witness :
  let s' := OptimizeU_state
              (Init_state X_3x2
                 (set_constant_ 2 (set_kernel_type_ kPolynomialKernel
                                     (set_c_ 3 default_engine)))) in
  (SetC 3 ;; SetKernel kPolynomialKernel 2 ;; Fit X_3x2) default_engine
  = Returns (tt, s') /\
  (Z.of_nat (cols X_3x2) < 2 ^ 31)%Z /\
  Z.of_nat (cols (u_matrix_ s')) = 3%Z /\
  kernel_type_ s' = kPolynomialKernel.
Proof.
  cbv zeta.
  assert (E : (SetC 3 ;; SetKernel kPolynomialKernel 2 ;; Fit X_3x2)
                default_engine
              = Returns (tt, OptimizeU_state
                  (Init_state X_3x2
                     (set_constant_ 2 (set_kernel_type_ kPolynomialKernel
                                         (set_c_ 3 default_engine)))))).
  { rewrite (bind_Returns _ _ _ _ _
               (SetC_returns 3 default_engine ltac:(le_members))).
    rewrite (bind_Returns _ _ _ _ _ (SetKernel_returns _ _ _)).
    apply Fit_returns; vm_compute; reflexivity. }
  assert (Hd : (Z.of_nat (cols X_3x2) < 2 ^ 31)%Z) by reflexivity.
  destruct (Fit_uses_configuration 3 kPolynomialKernel 2 default_engine _
              X_3x2 E Hd) as (_ & _ & _ & HU & _ & _ & _ & Hk & _).
  split; [exact E | split; [exact Hd | split; [exact HU | exact Hk]]].
Defined.

Lemma Fit_leaves_zero_clustering_result_witness :
  Fit X_2x1 default_engine
  = Returns (tt, OptimizeU_state (Init_state X_2x1 default_engine)) /\
  (Z.of_nat (rows X_2x1) < 2 ^ 31)%Z /\
  size (clustering_result
          (OptimizeU_state (Init_state X_2x1 default_engine))) = 2%nat.
Proof.
  split; [apply Fit_on_2x1 |].
  assert (Hn : (Z.of_nat (rows X_2x1) < 2 ^ 31)%Z) by reflexivity.
  split; [exact Hn |].
  exact (proj1 (Fit_leaves_zero_clustering_result default_engine _ X_2x1
                  Fit_on_2x1 Hn)).
Defined.

Lemma Init_narrows_dimensions_witness :
  Init X_1x3 default_engine
  = Returns (tt, Init_state X_1x3 default_engine) /\
  (- 2 ^ 31 <= n_ (Init_state X_1x3 default_engine) < 2 ^ 31)%Z.
Proof.
  split; [apply Init_returns |].
  exact (proj1 (Init_narrows_dimensions default_engine _ X_1x3
                  (Init_returns X_1x3 default_engine))).
Defined.

Lemma demo_degree_diagonal (k : Matrix Qc) :
  diagonal (snd (GenDegreeMatrix k)).
Proof.
  split; [reflexivity |]; simpl; intros i j _ _ Hij.
  destruct (Nat.eqb_spec i j); [contradiction | reflexivity].
Qed.

Lemma L_entries_witness :
  let s := Init_state X_2x1 default_engine in
  let s' := OptimizeU_state s in
  OptimizeU s = Returns (tt, s') /\
  diagonal (d_matrix_to_the_minus_half_ s') /\
  rows (k_matrix_ s') = 2%nat /\
  coeff (l_matrix_ s') 0 1
  = Tmul (Tmul (coeff (d_matrix_to_the_minus_half_ s') 0 0)
               (coeff (k_matrix_ s') 0 1))
         (coeff (d_matrix_to_the_minus_half_ s') 1 1).
Proof.
  cbv zeta.
  assert (HD : diagonal (d_matrix_to_the_minus_half_
            (OptimizeU_state (Init_state X_2x1 default_engine)))).
  { unfold OptimizeU_state, Init_state; cbv zeta; fields.
    apply demo_degree_diagonal. }
  assert (Hr : rows (k_matrix_
            (OptimizeU_state (Init_state X_2x1 default_engine))) = 2%nat).
  { unfold OptimizeU_state, Init_state; cbv zeta; fields; reflexivity. }
  split; [apply OptimizeU_on_2x1 |].
  split; [exact HD | split; [exact Hr |]].
  apply (L_entries (Init_state X_2x1 default_engine)
                   (OptimizeU_state (Init_state X_2x1 default_engine)) 0 1
                   OptimizeU_on_2x1 HD).
  - unfold OptimizeU_state, Init_state; cbv zeta; fields; reflexivity.
  - unfold OptimizeU_state, Init_state; cbv zeta; fields; reflexivity.
  - rewrite Hr; lia.
  - rewrite Hr; lia.
Defined.
